(** * Weather dashboard: the refresh pipeline of [static/app.js]

    The repository holds three revisions of one browser script:
    - [src/static/app.js], lines 1-148: the first revision (two-decimal
      KPIs, three 7-day charts);
    - [src/unnamed/part_000]: the second revision (one-decimal KPIs, the
      current pressure also in inches of mercury);
    - [src/static/app.js], lines 149-330: the third revision (named
      conversion constant, pressure delta in both units, two 24-hour
      charts).

    The script is embedded shallowly.  A JavaScript number is a binary64
    float ([PrimFloat.float]); a JSON field that holds a number, [null] or
    nothing at all is a [jsnum]; exceptions are values of [result]; the
    page (DOM text, chart objects, module-level chart variables, console,
    interval timers) is an explicit state threaded through a small
    state-and-exception monad.  What the browser decides (the network, the
    clock, the locale) is the [world] a cycle runs in. *)

From Stdlib Require Import ZArith String Ascii List Floats Lia.
From stdpp Require Import gmap strings list.

Set Warnings "-inexact-float".
Set Default Proof Using "Type".
Open Scope Z_scope.

(** ** Exceptions *)

(** A thrown value: the [name] and [message] of an [Error] object. *)
Record error := mkError { err_name : string; err_message : string }.

Inductive result (A : Type) : Type :=
| Ok (a : A)
| Err (e : error).
Arguments Ok {A} a.
Arguments Err {A} e.

Definition is_ok {A} (r : result A) : bool :=
  match r with Ok _ => true | Err _ => false end.

(** [new Error(msg)], and the errors the engine itself raises. *)
Definition Error (msg : string) : error := mkError "Error" msg.
Definition TypeError (msg : string) : error := mkError "TypeError" msg.
Definition RangeError (msg : string) : error := mkError "RangeError" msg.

(** ** Decimal digits *)

Definition digit_char (d : Z) : ascii := ascii_of_nat (48 + Z.to_nat d).

Definition is_digit (c : ascii) : bool :=
  (48 <=? nat_of_ascii c)%nat && (nat_of_ascii c <=? 57)%nat.

Definition digit_val (c : ascii) : Z := Z.of_nat (nat_of_ascii c) - 48.

Fixpoint all_digits (s : string) : bool :=
  match s with
  | EmptyString => true
  | String c s' => is_digit c && all_digits s'
  end.

(** The number a string of digits denotes, most significant digit first. *)
Fixpoint digits_value_from (acc : Z) (s : string) : Z :=
  match s with
  | EmptyString => acc
  | String c s' => digits_value_from (10 * acc + digit_val c) s'
  end.

Definition digits_value (s : string) : Z := digits_value_from 0 s.

Fixpoint decimal_go (fuel : nat) (n : Z) (acc : string) : string :=
  match fuel with
  | O => acc
  | S fuel' =>
      if n <? 10 then String (digit_char n) acc
      else decimal_go fuel' (n / 10) (String (digit_char (n mod 10)) acc)
  end.

(** The decimal representation of a natural number [n], without leading
    zeroes (["0"] for zero). *)
Definition decimal (n : Z) : string :=
  decimal_go (S (Z.to_nat (Z.log2 n))) n "".

Fixpoint zeros (n : nat) : string :=
  match n with
  | O => ""
  | S n' => String "0" (zeros n')
  end.

(** ** Numbers: [Number.prototype.toFixed] (ECMA-262, 21.1.3.3) *)

(** Steps 11.b-11.c: the digits of [n] with a point before the last [f]. *)
Definition fixed_digits (n f : Z) : string :=
  let m := if n =? 0 then "0"%string else decimal n in
  if f =? 0 then m
  else
    let k := Z.of_nat (String.length m) in
    let m' := if k <=? f then zeros (Z.to_nat (f + 1 - k)) +:+ m else m in
    let k' := if k <=? f then f + 1 else k in
    let a := substring 0 (Z.to_nat (k' - f)) m' in
    let b := substring (Z.to_nat (k' - f)) (Z.to_nat f) m' in
    a +:+ "." +:+ b.

(** Whether the integer [v] rounds (to nearest, ties to even) to the
    float [x]. *)
Definition rounds_to (v : Z) (x : spec_float) : bool :=
  SFeqb (binary_normalize prec emax v 0 false) x.

(** [Number::toString] for an integral value [X >= 10^21] of the float
    [x]: the shortest digit string [s] (of [k] digits) with
    [s * 10^(N-k)] rounding to [x], the closest one when several do. *)
Fixpoint shortest_go (fuel : nat) (k X N : Z) (x : spec_float) : Z * Z :=
  let p := 10 ^ (N - k) in
  let lo := X / p in
  let hi := lo + 1 in
  let oklo := rounds_to (lo * p) x in
  let okhi := rounds_to (hi * p) x in
  let dlo := X - lo * p in
  let dhi := hi * p - X in
  let pick_hi :=
    okhi && (negb oklo || (dhi <? dlo) || ((dhi =? dlo) && Z.even hi)) in
  match fuel with
  | O => (X, N)
  | S fuel' =>
      if oklo || okhi then
        if pick_hi then (if hi =? 10 ^ k then (1, N + 1) else (hi, N))
        else (lo, N)
      else shortest_go fuel' (k + 1) X N x
  end.

Definition number_to_string_large (X : Z) (x : spec_float) : string :=
  let N := Z.of_nat (String.length (decimal X)) in
  let '(s, n) := shortest_go 17 1 X N x in
  match decimal s with
  | EmptyString => ""
  | String c EmptyString => String c "e+" +:+ decimal (n - 1)
  | String c rest => String c ("." +:+ rest) +:+ "e+" +:+ decimal (n - 1)
  end.

(** The exact value of a positive finite float [m * 2^e] as a fraction. *)
Definition float_num (m : positive) (e : Z) : Z := Z.pos m * 2 ^ Z.max e 0.
Definition float_den (e : Z) : Z := 2 ^ Z.max (- e) 0.

(** Step 11.a: the integer [n] for which [n / 10^f - num/den] is closest
    to zero, the larger one of two. *)
Definition nearest_scaled (num den f : Z) : Z :=
  (2 * num * 10 ^ f + den) / (2 * den).

Definition toFixed (x : float) (fractionDigits : Z) : result string :=
  let f := fractionDigits in
  if (f <? 0) || (100 <? f)
  then Err (RangeError "toFixed() digits argument must be between 0 and 100")
  else
    match Prim2SF x with
    | S754_nan => Ok "NaN"%string
    | S754_infinity s => Ok (if s then "-Infinity" else "Infinity")%string
    | S754_zero _ => Ok (fixed_digits 0 f)
    | S754_finite s m e =>
        let sgn := (if s then "-" else "")%string in
        let num := float_num m e in
        let den := float_den e in
        if 10 ^ 21 * den <=? num
        then Ok (sgn +:+ number_to_string_large num (S754_finite false m e))
        else Ok (sgn +:+ fixed_digits (nearest_scaled num den f) f)
    end.

(** The string of an integer in a template literal ([${r.status}]). *)
Definition int_to_string (z : Z) : string :=
  if z <? 0 then "-" +:+ decimal (- z) else decimal z.

(** ** JSON values as the script reads them *)

(** A numeric field: absent ([undefined]), [null], or a number. *)
Inductive jsnum :=
| NumUndefined
| NumNull
| Num (f : float).

(** A string field (the timestamps). *)
Inductive jsstr :=
| StrUndefined
| StrNull
| Str (s : string).

(** An object-valued field or payload. *)
Inductive jsobj (A : Type) :=
| ObjUndefined
| ObjNull
| Obj (a : A).
Arguments ObjUndefined {A}.
Arguments ObjNull {A}.
Arguments Obj {A} a.

(** [ToNumber]: [undefined] is NaN and [null] is [+0]. *)
Definition ToNumber (x : jsnum) : float :=
  match x with
  | NumUndefined => nan
  | NumNull => zero
  | Num f => f
  end.

(** [Number.isNaN(x)]: no coercion, true only of the number NaN. *)
Definition Number_isNaN (x : jsnum) : bool :=
  match x with
  | Num f => is_nan f
  | _ => false
  end.

Definition is_null (x : jsnum) : bool :=
  match x with NumNull => true | _ => false end.

Definition is_undefined (x : jsnum) : bool :=
  match x with NumUndefined => true | _ => false end.

(** [x * y], [x > y], [x < y] and [Math.abs(x)] on such values. *)
Definition js_mul (x y : jsnum) : float := PrimFloat.mul (ToNumber x) (ToNumber y).
Definition js_gt (x y : jsnum) : bool := PrimFloat.ltb (ToNumber y) (ToNumber x).
Definition js_lt (x y : jsnum) : bool := PrimFloat.ltb (ToNumber x) (ToNumber y).
Definition Math_abs (x : jsnum) : float := PrimFloat.abs (ToNumber x).

(** [!s]: [undefined], [null] and the empty string are falsy. *)
Definition falsy (s : jsstr) : bool :=
  match s with
  | Str s => if String.eqb s "" then true else false
  | _ => true
  end.

(** [o.name]: reading a property of [null] or [undefined] throws. *)
Definition prop {A B} (o : jsobj A) (name : string) (get : A -> B) : result B :=
  match o with
  | Obj a => Ok (get a)
  | ObjNull =>
      Err (TypeError ("Cannot read properties of null (reading '" +:+ name +:+ "')"))
  | ObjUndefined =>
      Err (TypeError ("Cannot read properties of undefined (reading '" +:+ name +:+ "')"))
  end.

(** ** Data model *)

Record Reading := mkReading {
  ts_utc : jsstr;
  temp_f : jsnum;
  humidity_pct : jsnum;
  pressure_hpa : jsnum
}.

Record Summary := mkSummary {
  current : jsobj Reading;
  temp_24h_high : jsobj Reading;
  temp_24h_low : jsobj Reading;
  pressure_change_hpa : jsnum;
  pressure_24h_reference : jsobj Reading
}.

Definition TimeSeries := list (jsobj Reading).

(** A chart point [{x: ..., y: ...}]. *)
Record point := mkPoint { x : jsstr; y : jsnum }.

(** A [Chart] object: where it is mounted, its dataset label, the unit of
    its time axis, its point array, and how often [update()] redrew it. *)
Record chart := mkChart {
  canvas : string;
  label : string;
  timeUnit : string;
  data : list point;
  updates : nat
}.

(** ** The page *)

(** [text] is the [textContent] of the elements by id; [charts] holds the
    chart objects ever constructed, and the five module-level variables
    refer to them by position ([None] is [undefined]); [console] is what
    [console.error] logged, latest first; [intervals] the periods of the
    timers [setInterval] installed. *)
Record page := mkPage {
  text : gmap string string;
  charts : list chart;
  tempChart : option nat;
  humChart : option nat;
  presChart : option nat;
  temp24Chart : option nat;
  pres24Chart : option nat;
  console : list error;
  intervals : list Z
}.

Definition initial_page (t : gmap string string) : page :=
  mkPage t [] None None None None None [] [].

Definition with_text (f : gmap string string -> gmap string string) (p : page) : page :=
  mkPage (f (text p)) (charts p) (tempChart p) (humChart p) (presChart p)
    (temp24Chart p) (pres24Chart p) (console p) (intervals p).

Definition with_charts (f : list chart -> list chart) (p : page) : page :=
  mkPage (text p) (f (charts p)) (tempChart p) (humChart p) (presChart p)
    (temp24Chart p) (pres24Chart p) (console p) (intervals p).

Definition with_console (f : list error -> list error) (p : page) : page :=
  mkPage (text p) (charts p) (tempChart p) (humChart p) (presChart p)
    (temp24Chart p) (pres24Chart p) (f (console p)) (intervals p).

Definition with_intervals (f : list Z -> list Z) (p : page) : page :=
  mkPage (text p) (charts p) (tempChart p) (humChart p) (presChart p)
    (temp24Chart p) (pres24Chart p) (console p) (f (intervals p)).

(** The module-level chart variables. *)
Inductive chart_var := TempChart | HumChart | PresChart | Temp24Chart | Pres24Chart.

Definition read_var (v : chart_var) (p : page) : option nat :=
  match v with
  | TempChart => tempChart p
  | HumChart => humChart p
  | PresChart => presChart p
  | Temp24Chart => temp24Chart p
  | Pres24Chart => pres24Chart p
  end.

Definition write_var (v : chart_var) (h : option nat) (p : page) : page :=
  match v with
  | TempChart =>
      mkPage (text p) (charts p) h (humChart p) (presChart p)
        (temp24Chart p) (pres24Chart p) (console p) (intervals p)
  | HumChart =>
      mkPage (text p) (charts p) (tempChart p) h (presChart p)
        (temp24Chart p) (pres24Chart p) (console p) (intervals p)
  | PresChart =>
      mkPage (text p) (charts p) (tempChart p) (humChart p) h
        (temp24Chart p) (pres24Chart p) (console p) (intervals p)
  | Temp24Chart =>
      mkPage (text p) (charts p) (tempChart p) (humChart p) (presChart p)
        h (pres24Chart p) (console p) (intervals p)
  | Pres24Chart =>
      mkPage (text p) (charts p) (tempChart p) (humChart p) (presChart p)
        (temp24Chart p) h (console p) (intervals p)
  end.

(** ** Script code: state and exceptions *)

(** A piece of script run on a page either completes with a value or
    throws; either way the page keeps the effects made so far. *)
Definition M (A : Type) : Type := page -> result A * page.

Definition ret {A} (a : A) : M A := fun p => (Ok a, p).

Definition throw {A} (e : error) : M A := fun p => (Err e, p).

Definition bind {A B} (c : M A) (k : A -> M B) : M B :=
  fun p =>
    match c p with
    | (Ok a, p') => k a p'
    | (Err e, p') => (Err e, p')
    end.

Notation "x <- c ;; k" := (bind c (fun x => k))
  (at level 100, c at next level, right associativity).
Notation "c ;;; k" := (bind c (fun _ => k))
  (at level 100, right associativity).

(** A pure expression that may throw. *)
Definition lift {A} (r : result A) : M A := fun p => (r, p).

(** [try { body } catch (e) { handler }], and [promise.catch(handler)]. *)
Definition try_catch {A} (body : M A) (handler : error -> M A) : M A :=
  fun p =>
    match body p with
    | (Ok a, p') => (Ok a, p')
    | (Err e, p') => handler e p'
    end.

Fixpoint for_each {A} (l : list A) (body : A -> M unit) : M unit :=
  match l with
  | [] => ret tt
  | a :: l' => body a ;;; for_each l' body
  end.

Fixpoint map_result {A B} (f : A -> result B) (l : list A) : result (list B) :=
  match l with
  | [] => Ok []
  | a :: l' =>
      match f a with
      | Err e => Err e
      | Ok b =>
          match map_result f l' with
          | Err e => Err e
          | Ok bs => Ok (b :: bs)
          end
      end
  end.

(** [ts.map(f)] on a payload that should be an array. *)
Definition array_map {A B} (ts : jsobj (list A)) (f : A -> result B) : result (list B) :=
  match prop ts "map" id with
  | Err e => Err e
  | Ok l => map_result f l
  end.

(** [ts.filter(f)]. *)
Definition array_filter {A} (ts : jsobj (list A)) (f : A -> result bool) : result (list A) :=
  match prop ts "filter" id with
  | Err e => Err e
  | Ok l =>
      match map_result f l with
      | Err e => Err e
      | Ok keep => Ok (map fst (List.filter snd (combine l keep)))
      end
  end.

(** [o.f.g] *)
Definition prop2 {A B C} (o : jsobj A) (n1 : string) (g1 : A -> jsobj B)
    (n2 : string) (g2 : B -> C) : M C :=
  lift (match prop o n1 g1 with
        | Err e => Err e
        | Ok b => prop b n2 g2
        end).

(** [document.getElementById(id).textContent = v] *)
Definition set_text (id v : string) : M unit :=
  fun p => (Ok tt, with_text (fun t => <[id := v]> t) p).

(** [console.error(e)] *)
Definition console_error (e : error) : M unit :=
  fun p => (Ok tt, with_console (fun l => e :: l) p).

(** [setInterval(callback, period)]: the script has one callback. *)
Definition setInterval (period : Z) : M unit :=
  fun p => (Ok tt, with_intervals (fun l => l ++ [period]) p).

(** [new Chart(ctx, config)]: a new chart object, never one that exists. *)
Definition new_Chart (ctx lbl unit : string) (pts : list point) : M nat :=
  fun p => (Ok (length (charts p)),
            with_charts (fun cs => cs ++ [mkChart ctx lbl unit pts 0]) p).

Definition assign (v : chart_var) (h : nat) : M unit :=
  fun p => (Ok tt, write_var v (Some h) p).

Definition undefined_chart : error :=
  TypeError "Cannot read properties of undefined (reading 'data')".

(** [chart.data.datasets[0].data = pts] on the object a variable holds. *)
Definition set_data (c : option nat) (pts : list point) : M unit :=
  match c with
  | None => throw undefined_chart
  | Some h =>
      fun p => (Ok tt,
                with_charts (alter (fun ch =>
                  mkChart (canvas ch) (label ch) (timeUnit ch) pts (updates ch)) h) p)
  end.

(** [chart.update()] *)
Definition chart_update (c : option nat) : M unit :=
  match c with
  | None => throw undefined_chart
  | Some h =>
      fun p => (Ok tt,
                with_charts (alter (fun ch =>
                  mkChart (canvas ch) (label ch) (timeUnit ch) (data ch)
                    (S (updates ch))) h) p)
  end.

(** ** The world of one refresh cycle *)

(** The clock and the locale of the browser: [Date.parse], [Date.now()],
    [Date.prototype.toLocaleString()] and [toLocaleTimeString([], {hour:
    "2-digit", minute: "2-digit"})], the last two on a time value. *)
Record host := mkHost {
  Date_parse : string -> float;
  Date_now : float;
  toLocaleString : float -> string;
  toLocaleTimeString : float -> string
}.

(** A [Response]: its status, its body as text ([r.text()]) and the same
    body decoded ([r.json()], which rejects on malformed JSON). *)
Record response (A : Type) := mkResponse {
  status : Z;
  body_text : string;
  body_json : result A
}.
Arguments mkResponse {A} status body_text body_json.
Arguments status {A} r.
Arguments body_text {A} r.
Arguments body_json {A} r.

(** [r.ok]: the status is in the range 200-299. *)
Definition ok {A} (r : response A) : bool :=
  (200 <=? status r) && (status r <=? 299).

(** What [fetch(url)] settles to: a rejection (the network failed) or a
    response. *)
Inductive fetched (A : Type) :=
| Rejected (e : error)
| Responded (r : response A).
Arguments Rejected {A} e.
Arguments Responded {A} r.

(** The two endpoints answer by URL; [summary_first] tells which of the
    two requests of a cycle settles first. *)
Record world := mkWorld {
  the_host : host;
  fetch_summary : string -> fetched (jsobj Summary);
  fetch_timeseries : string -> fetched (jsobj TimeSeries);
  summary_first : bool
}.

(** [Promise.all([a, b])]: both values, or the rejection that came first. *)
Definition Promise_all {A B} (a_first : bool) (a : result A) (b : result B)
  : result (A * B) :=
  match a, b with
  | Ok va, Ok vb => Ok (va, vb)
  | Err e, Ok _ => Err e
  | Ok _, Err e => Err e
  | Err ea, Err eb => Err (if a_first then ea else eb)
  end.

(** ** Functions the three revisions share *)

Definition placeholder : string := "—".

(** [fmtNum(x, digits = 2)], app.js:7-10 and 157-160, part_000:9-12. *)
Definition fmtNum (x : jsnum) (digits : option Z) : result string :=
  let digits := default 2 digits in
  if is_null x || is_undefined x || Number_isNaN x then Ok placeholder
  else toFixed (ToNumber x) digits.

(** [new Error(`HTTP ${r.status}: ${txt}`)] *)
Definition http_error (status : Z) (txt : string) : error :=
  Error ("HTTP " +:+ int_to_string status +:+ ": " +:+ txt).

(** [getJSON(url)], app.js:12-19 and 165-172, part_000:14-21. *)
Definition getJSON {A} (fetch : string -> fetched A) (url : string) : result A :=
  match fetch url with
  | Rejected e => Err e
  | Responded r =>
      if negb (ok r) then
        let txt := body_text r in
        Err (http_error (status r) txt)
      else body_json r
  end.

(** [new Date(v).getTime()] *)
Definition Date_getTime (h : host) (v : jsstr) : float :=
  match v with
  | StrUndefined => nan
  | StrNull => zero
  | Str s => Date_parse h s
  end.

(** The first two lines of [refresh] in every revision. *)
Definition fetch_stage (w : world) : result (jsobj Summary * jsobj TimeSeries) :=
  Promise_all (summary_first w)
    (getJSON (fetch_summary w) "/api/summary")
    (getJSON (fetch_timeseries w) "/api/timeseries?days=7").

(** [ts.map((p) => ({ x: p.ts_utc, y: p.<field> }))] *)
Definition points_of (ts : jsobj TimeSeries) (field : string) (get : Reading -> jsnum)
  : result (list point) :=
  array_map ts (fun p =>
    match prop p "ts_utc" ts_utc with
    | Err e => Err e
    | Ok px =>
        match prop p field get with
        | Err e => Err e
        | Ok py => Ok (mkPoint px py)
        end
    end).

(** [delta > 0 ? "up" : delta < 0 ? "down" : "flat"] *)
Definition direction_of (delta : jsnum) : string :=
  if js_gt delta (Num 0) then "up"
  else if js_lt delta (Num 0) then "down"
  else "flat".

(** [!chart] on a module-level chart variable. *)
Definition unset (c : option nat) : bool :=
  match c with
  | None => true
  | Some _ => false
  end.

(** The loop that updates the three 7-day charts. *)
Definition update_each (l : list (option nat * list point)) : M unit :=
  for_each l (fun '(chart, dataPoints) =>
    set_data chart dataPoints ;;;
    chart_update chart).

(** ** The top-level driver, app.js:138-148 and 320-330, part_000:136-146 *)

Section Driver.
Variable refresh : world -> M unit.

(** The callback [() => refresh().catch(console.error)]. *)
Definition on_interval (w : world) : M unit :=
  try_catch (refresh w) console_error.

(** The immediately invoked [async] function. *)
Definition main (w : world) : M unit :=
  try_catch
    (refresh w ;;;
     setInterval 60000)
    (fun e =>
       console_error e ;;;
       set_text "lastUpdated" ("Error loading data: " +:+ err_message e)).

(** The page's events: the script is loaded and runs [main]; an
    interval elapses and every installed timer runs its callback.  Each
    carries the world its cycle meets. *)
Inductive event :=
| Load (w : world)
| Tick (w : world).

Definition step (ev : event) : M unit :=
  match ev with
  | Load w => main w
  | Tick w => fun p => for_each (intervals p) (fun _ => on_interval w) p
  end.

(** The page after a sequence of events; an uncaught exception would
    stop the run and be returned. *)
Fixpoint run (evs : list event) : M unit :=
  match evs with
  | [] => ret tt
  | ev :: evs' => step ev ;;; run evs'
  end.
End Driver.

(** ** First revision: src/static/app.js, lines 1-148 *)

Module Rev1.

(** [fmtLocalTime(isoZ)], lines 1-5. *)
Definition fmtLocalTime (h : host) (isoZ : jsstr) : string :=
  if falsy isoZ then placeholder
  else
    let d := Date_getTime h isoZ in
    toLocaleString h d.

(** [buildLineChart(ctx, dataPoints, yLabel)], lines 23-56. *)
Definition buildLineChart (ctx : string) (dataPoints : list point) (yLabel : string)
  : M nat :=
  new_Chart ctx yLabel "day" dataPoints.

(** The [if (!tempChart) { ... } else { ... }] that ends [refresh],
    lines 110-135. *)
Definition charts_7d (tempPoints humPoints presPoints : list point) : M unit :=
  fun p =>
    (if unset (tempChart p) then
       c <- buildLineChart "chartTemp" tempPoints "Temp (°F)" ;;
       assign TempChart c ;;;
       c <- buildLineChart "chartHum" humPoints "Humidity (%)" ;;
       assign HumChart c ;;;
       c <- buildLineChart "chartPres" presPoints "Pressure (hPa)" ;;
       assign PresChart c
     else
       update_each [(tempChart p, tempPoints);
                    (humChart p, humPoints);
                    (presChart p, presPoints)]) p.

(** [refresh()], lines 58-136. *)
Definition refresh (w : world) : M unit :=
  let h := the_host w in
  st <- lift (fetch_stage w) ;;
  let '(summary, ts) := st in
  (* KPI: current *)
  v <- prop2 summary "current" current "temp_f" temp_f ;;
  s <- lift (fmtNum v (Some 2)) ;;
  set_text "curTemp" (s +:+ " °F") ;;;
  v <- prop2 summary "current" current "humidity_pct" humidity_pct ;;
  s <- lift (fmtNum v (Some 2)) ;;
  set_text "curHum" (s +:+ " %") ;;;
  v <- prop2 summary "current" current "pressure_hpa" pressure_hpa ;;
  s <- lift (fmtNum v (Some 2)) ;;
  set_text "curPres" (s +:+ " hPa") ;;;
  t <- prop2 summary "current" current "ts_utc" ts_utc ;;
  let curTs := fmtLocalTime h t in
  set_text "curTempTs" curTs ;;;
  set_text "curHumTs" curTs ;;;
  set_text "curPresTs" curTs ;;;
  (* KPI: 24h high/low *)
  v <- prop2 summary "temp_24h_high" temp_24h_high "temp_f" temp_f ;;
  s <- (if is_null v then ret placeholder
        else
          v <- prop2 summary "temp_24h_high" temp_24h_high "temp_f" temp_f ;;
          s <- lift (fmtNum v (Some 2)) ;;
          ret (s +:+ " °F")) ;;
  set_text "tHigh" s ;;;
  t <- prop2 summary "temp_24h_high" temp_24h_high "ts_utc" ts_utc ;;
  set_text "tHighTs" (fmtLocalTime h t) ;;;
  v <- prop2 summary "temp_24h_low" temp_24h_low "temp_f" temp_f ;;
  s <- (if is_null v then ret placeholder
        else
          v <- prop2 summary "temp_24h_low" temp_24h_low "temp_f" temp_f ;;
          s <- lift (fmtNum v (Some 2)) ;;
          ret (s +:+ " °F")) ;;
  set_text "tLow" s ;;;
  t <- prop2 summary "temp_24h_low" temp_24h_low "ts_utc" ts_utc ;;
  set_text "tLowTs" (fmtLocalTime h t) ;;;
  (* KPI: pressure delta (24h) *)
  delta <- lift (prop summary "pressure_change_hpa" pressure_change_hpa) ;;
  let direction := direction_of delta in
  s <- lift (fmtNum (Num (Math_abs delta)) (Some 2)) ;;
  set_text "presDelta" (direction +:+ " " +:+ s +:+ " hPa") ;;;
  t <- prop2 summary "pressure_24h_reference" pressure_24h_reference "ts_utc" ts_utc ;;
  set_text "presDeltaSub" ("vs " +:+ fmtLocalTime h t +:+ " reference") ;;;
  t <- prop2 summary "current" current "ts_utc" ts_utc ;;
  set_text "lastUpdated" ("Last updated: " +:+ fmtLocalTime h t) ;;;
  (* Charts *)
  tempPoints <- lift (points_of ts "temp_f" temp_f) ;;
  humPoints <- lift (points_of ts "humidity_pct" humidity_pct) ;;
  presPoints <- lift (points_of ts "pressure_hpa" pressure_hpa) ;;
  charts_7d tempPoints humPoints presPoints.

Definition main := main refresh.
Definition on_interval := on_interval refresh.
Definition step := step refresh.
Definition run := run refresh.

End Rev1.

(** [fmtLocalTime(isoZ, timeOnly = false)] of the later revisions,
    part_000:1-7 and app.js:149-155. *)
Definition fmtLocalTime (h : host) (isoZ : jsstr) (timeOnly : bool) : string :=
  if falsy isoZ then placeholder
  else
    let d := Date_getTime h isoZ in
    if timeOnly then toLocaleTimeString h d
    else toLocaleString h d.

(** ** Second revision: src/unnamed/part_000 *)

Module Rev2.

(** [buildLineChart(ctx, dataPoints, yLabel)], lines 25-58. *)
Definition buildLineChart (ctx : string) (dataPoints : list point) (yLabel : string)
  : M nat :=
  new_Chart ctx yLabel "day" dataPoints.

(** The [if (!tempChart) { ... } else { ... }] that ends [refresh],
    lines 108-133. *)
Definition charts_7d (tempPoints humPoints presPoints : list point) : M unit :=
  fun p =>
    (if unset (tempChart p) then
       c <- buildLineChart "chartTemp" tempPoints "Temp (°F)" ;;
       assign TempChart c ;;;
       c <- buildLineChart "chartHum" humPoints "Humidity (%)" ;;
       assign HumChart c ;;;
       c <- buildLineChart "chartPres" presPoints "Pressure (hPa)" ;;
       assign PresChart c
     else
       update_each [(tempChart p, tempPoints);
                    (humChart p, humPoints);
                    (presChart p, presPoints)]) p.

(** [refresh()], lines 60-134. *)
Definition refresh (w : world) : M unit :=
  let h := the_host w in
  st <- lift (fetch_stage w) ;;
  let '(summary, ts) := st in
  (* KPI: current *)
  v <- prop2 summary "current" current "temp_f" temp_f ;;
  s <- lift (fmtNum v (Some 1)) ;;
  set_text "curTemp" (s +:+ " °F") ;;;
  v <- prop2 summary "current" current "humidity_pct" humidity_pct ;;
  s <- lift (fmtNum v (Some 1)) ;;
  set_text "curHum" (s +:+ " %") ;;;
  presHpa <- prop2 summary "current" current "pressure_hpa" pressure_hpa ;;
  let presInHg := js_mul presHpa (Num 0.02953) in
  s1 <- lift (fmtNum presHpa (Some 1)) ;;
  s2 <- lift (fmtNum (Num presInHg) (Some 1)) ;;
  set_text "curPres" (s1 +:+ " hPa / " +:+ s2 +:+ " inHg") ;;;
  t <- prop2 summary "current" current "ts_utc" ts_utc ;;
  let curTs := fmtLocalTime h t false in
  (* KPI: 24h high/low *)
  v <- prop2 summary "temp_24h_high" temp_24h_high "temp_f" temp_f ;;
  s <- (if is_null v then ret placeholder
        else
          v <- prop2 summary "temp_24h_high" temp_24h_high "temp_f" temp_f ;;
          s <- lift (fmtNum v (Some 1)) ;;
          ret (s +:+ " °F")) ;;
  set_text "tHigh" s ;;;
  t <- prop2 summary "temp_24h_high" temp_24h_high "ts_utc" ts_utc ;;
  set_text "tHighTs" ("@ " +:+ fmtLocalTime h t true) ;;;
  v <- prop2 summary "temp_24h_low" temp_24h_low "temp_f" temp_f ;;
  s <- (if is_null v then ret placeholder
        else
          v <- prop2 summary "temp_24h_low" temp_24h_low "temp_f" temp_f ;;
          s <- lift (fmtNum v (Some 1)) ;;
          ret (s +:+ " °F")) ;;
  set_text "tLow" s ;;;
  t <- prop2 summary "temp_24h_low" temp_24h_low "ts_utc" ts_utc ;;
  set_text "tLowTs" ("@ " +:+ fmtLocalTime h t true) ;;;
  (* KPI: pressure delta (24h) *)
  delta <- lift (prop summary "pressure_change_hpa" pressure_change_hpa) ;;
  let direction := direction_of delta in
  s <- lift (fmtNum (Num (Math_abs delta)) (Some 1)) ;;
  set_text "presDelta" (direction +:+ " " +:+ s +:+ " hPa") ;;;
  t <- prop2 summary "current" current "ts_utc" ts_utc ;;
  set_text "lastUpdated" ("Last updated: " +:+ fmtLocalTime h t false) ;;;
  tempPoints <- lift (points_of ts "temp_f" temp_f) ;;
  humPoints <- lift (points_of ts "humidity_pct" humidity_pct) ;;
  presPoints <- lift (points_of ts "pressure_hpa" pressure_hpa) ;;
  charts_7d tempPoints humPoints presPoints.

Definition main := main refresh.
Definition on_interval := on_interval refresh.
Definition step := step refresh.
Definition run := run refresh.

End Rev2.

(** ** Third revision: src/static/app.js, lines 149-330 *)

Module Rev3.

(** Conversion factor: 1 hPa = 0.02953 inHg (lines 162-163). *)
Definition PRESSURE_HPA_TO_INHG : float := 0.02953.

(** [buildLineChart(ctx, dataPoints, yLabel, timeUnit = "day")],
    lines 177-210. *)
Definition buildLineChart (ctx : string) (dataPoints : list point) (yLabel : string)
    (timeUnit : option string) : M nat :=
  let timeUnit := default "day"%string timeUnit in
  new_Chart ctx yLabel timeUnit dataPoints.

(** [24 * 60 * 60 * 1000] *)
Definition day_ms : float := (24 * 60 * 60 * 1000)%float.

(** [ts.filter((p) => new Date(p.ts_utc).getTime() >= cutoff)] *)
Definition last_24h (h : host) (ts : jsobj TimeSeries) (cutoff : float)
  : result (jsobj TimeSeries) :=
  match array_filter ts (fun p =>
          match prop p "ts_utc" ts_utc with
          | Err e => Err e
          | Ok t => Ok (PrimFloat.leb cutoff (Date_getTime h t))
          end) with
  | Err e => Err e
  | Ok l => Ok (Obj l)
  end.

(** Create/update 24h charts (hourly), lines 270-289. *)
Definition charts_24h (temp24Points pres24Points : list point) : M unit :=
  fun p =>
    (if unset (temp24Chart p) then
       c <- buildLineChart "chartTemp24" temp24Points "Temp (°F)" (Some "hour"%string) ;;
       assign Temp24Chart c ;;;
       c <- buildLineChart "chartPres24" pres24Points "Pressure (hPa)" (Some "hour"%string) ;;
       assign Pres24Chart c
     else
       (fun p => set_data (temp24Chart p) temp24Points p) ;;;
       (fun p => chart_update (temp24Chart p) p) ;;;
       (fun p => set_data (pres24Chart p) pres24Points p) ;;;
       (fun p => chart_update (pres24Chart p) p)) p.

(** Create/update 7d charts, lines 291-317. *)
Definition charts_7d (tempPoints humPoints presPoints : list point) : M unit :=
  fun p =>
    (if unset (tempChart p) then
       c <- buildLineChart "chartTemp" tempPoints "Temp (°F)" None ;;
       assign TempChart c ;;;
       c <- buildLineChart "chartHum" humPoints "Humidity (%)" None ;;
       assign HumChart c ;;;
       c <- buildLineChart "chartPres" presPoints "Pressure (hPa)" None ;;
       assign PresChart c
     else
       update_each [(tempChart p, tempPoints);
                    (humChart p, humPoints);
                    (presChart p, presPoints)]) p.

(** [refresh()], lines 212-318. *)
Definition refresh (w : world) : M unit :=
  let h := the_host w in
  st <- lift (fetch_stage w) ;;
  let '(summary, ts) := st in
  (* KPI: current *)
  v <- prop2 summary "current" current "temp_f" temp_f ;;
  s <- lift (fmtNum v (Some 1)) ;;
  set_text "curTemp" (s +:+ " °F") ;;;
  v <- prop2 summary "current" current "humidity_pct" humidity_pct ;;
  s <- lift (fmtNum v (Some 1)) ;;
  set_text "curHum" (s +:+ " %") ;;;
  presHpa <- prop2 summary "current" current "pressure_hpa" pressure_hpa ;;
  let presInHg := js_mul presHpa (Num PRESSURE_HPA_TO_INHG) in
  s1 <- lift (fmtNum presHpa (Some 1)) ;;
  s2 <- lift (fmtNum (Num presInHg) (Some 1)) ;;
  set_text "curPres" (s1 +:+ " hPa / " +:+ s2 +:+ " inHg") ;;;
  t <- prop2 summary "current" current "ts_utc" ts_utc ;;
  let curTs := fmtLocalTime h t false in
  (* KPI: 24h high/low *)
  v <- prop2 summary "temp_24h_high" temp_24h_high "temp_f" temp_f ;;
  s <- (if is_null v then ret placeholder
        else
          v <- prop2 summary "temp_24h_high" temp_24h_high "temp_f" temp_f ;;
          s <- lift (fmtNum v (Some 1)) ;;
          ret (s +:+ " °F")) ;;
  set_text "tHigh" s ;;;
  t <- prop2 summary "temp_24h_high" temp_24h_high "ts_utc" ts_utc ;;
  set_text "tHighTs" ("@ " +:+ fmtLocalTime h t true) ;;;
  v <- prop2 summary "temp_24h_low" temp_24h_low "temp_f" temp_f ;;
  s <- (if is_null v then ret placeholder
        else
          v <- prop2 summary "temp_24h_low" temp_24h_low "temp_f" temp_f ;;
          s <- lift (fmtNum v (Some 1)) ;;
          ret (s +:+ " °F")) ;;
  set_text "tLow" s ;;;
  t <- prop2 summary "temp_24h_low" temp_24h_low "ts_utc" ts_utc ;;
  set_text "tLowTs" ("@ " +:+ fmtLocalTime h t true) ;;;
  (* KPI: pressure delta (24h) *)
  delta <- lift (prop summary "pressure_change_hpa" pressure_change_hpa) ;;
  let deltaInHg := js_mul delta (Num PRESSURE_HPA_TO_INHG) in
  let direction := direction_of delta in
  s1 <- lift (fmtNum (Num (Math_abs delta)) (Some 1)) ;;
  s2 <- lift (fmtNum (Num (Math_abs (Num deltaInHg))) (Some 1)) ;;
  set_text "presDelta" (direction +:+ " " +:+ s1 +:+ " hPa / " +:+ s2 +:+ " inHg") ;;;
  t <- prop2 summary "current" current "ts_utc" ts_utc ;;
  set_text "lastUpdated" ("Last updated: " +:+ fmtLocalTime h t false) ;;;
  tempPoints <- lift (points_of ts "temp_f" temp_f) ;;
  humPoints <- lift (points_of ts "humidity_pct" humidity_pct) ;;
  presPoints <- lift (points_of ts "pressure_hpa" pressure_hpa) ;;
  (* 24-hour subset (for hourly charts) *)
  let cutoff := PrimFloat.sub (Date_now h) day_ms in
  ts24 <- lift (last_24h h ts cutoff) ;;
  temp24Points <- lift (points_of ts24 "temp_f" temp_f) ;;
  pres24Points <- lift (points_of ts24 "pressure_hpa" pressure_hpa) ;;
  charts_24h temp24Points pres24Points ;;;
  charts_7d tempPoints humPoints presPoints.

Definition main := main refresh.
Definition on_interval := on_interval refresh.
Definition step := step refresh.
Definition run := run refresh.

End Rev3.

(** * Specification vocabulary *)

(** A text that starts with a decimal digit. *)
Definition head_digit (s : string) : bool :=
  match s with
  | EmptyString => false
  | String c _ => is_digit c
  end.

(** A text that starts with a minus sign. *)
Definition has_minus (s : string) : bool :=
  match s with
  | String "-" _ => true
  | _ => false
  end.

(** A text with a decimal point somewhere. *)
Fixpoint has_point (s : string) : bool :=
  match s with
  | EmptyString => false
  | String c s' => if Ascii.eqb c "." then true else has_point s'
  end.

(** The digit string [toFixed] splits: what it denotes and how it reads. *)
Definition fixed_point_text (s : string) (n d : Z) : Prop :=
  exists a b : string,
    s = a +:+ (if d =? 0 then "" else "." +:+ b) /\
    head_digit a = true /\ all_digits a = true /\ all_digits b = true /\
    Z.of_nat (String.length b) = d /\
    digits_value (a +:+ b) = n.


(** [x] is zero or finite with [|x| < 10^21]: the range in which
    [toFixed] writes fixed-point digits. *)
Definition in_fixed_range (x : float) : bool :=
  match Prim2SF x with
  | S754_zero _ => true
  | S754_finite _ m e => float_num m e <? 10 ^ 21 * float_den e
  | _ => false
  end.

(** [out] is the fixed-point rendering of [x] with [d] digits after the
    point: an optional minus sign, then digits that denote the integer
    [n] with [n / 10^d] nearest to [|x|] (the larger of two), the last
    [d] of them after the point (no point when [d] is 0). *)
Definition renders_fixed (x : float) (d : Z) (out : string) : Prop :=
  match Prim2SF x with
  | S754_zero _ => fixed_point_text out 0 d
  | S754_finite s m e =>
      exists (t : string) (n : Z),
        out = (if s then "-" else "") +:+ t /\
        fixed_point_text t n d /\
        2 * float_den e * n - float_den e <= 2 * float_num m e * 10 ^ d
          < 2 * float_den e * n + float_den e
  | _ => False
  end.

(** [x] is finite with [|x| >= 10^21]: the range in which [toFixed]
    hands over to [Number::toString]. *)
Definition is_large (x : float) : bool :=
  match Prim2SF x with
  | S754_finite _ m e => 10 ^ 21 * float_den e <=? float_num m e
  | _ => false
  end.

(** Exponent notation of a magnitude from 10^21 on: one digit other than
    zero, then a point and further digits if there are any, then "e+" and
    the decimal exponent, which is at least 21. *)
Definition exponent_text (t : string) : Prop :=
  exists (c : ascii) (frac ex : string),
    t = String c ((match frac with
                   | EmptyString => ""
                   | String _ _ => "." +:+ frac
                   end) +:+ "e+" +:+ ex) /\
    is_digit c = true /\ c <> "0"%char /\ all_digits frac = true /\
    head_digit ex = true /\ all_digits ex = true /\ 21 <= digits_value ex.

(** [out] is [x] in exponent notation: an optional minus sign, then the
    exponent notation of the magnitude. *)
Definition renders_exponent (x : float) (out : string) : Prop :=
  match Prim2SF x with
  | S754_finite s _ _ =>
      exists t : string, out = (if s then "-" else "") +:+ t /\ exponent_text t
  | _ => False
  end.


(** The text [fmtNum] returns, for a digit count it accepts. *)
Definition fmt (x : jsnum) (d : Z) : string :=
  match fmtNum x (Some d) with
  | Ok s => s
  | Err _ => ""
  end.

(** The text of a 24-hour high or low: a bare placeholder for [null]. *)
Definition high_low_text (v : jsnum) (d : Z) : string :=
  if is_null v then placeholder else fmt v d +:+ " °F".

(** What the KPI part of [refresh] leaves in the text fields, by
    revision, when the summary and its three readings are objects. *)
Definition Rev1_kpi_text (h : host) (cur hi lo : Reading) (delta : jsnum)
    (ref : Reading) (t : gmap string string) : gmap string string :=
  <["lastUpdated" := "Last updated: " +:+ Rev1.fmtLocalTime h (ts_utc cur)]>
  (<["presDeltaSub" := "vs " +:+ Rev1.fmtLocalTime h (ts_utc ref) +:+ " reference"]>
  (<["presDelta" := direction_of delta +:+ " " +:+ fmt (Num (Math_abs delta)) 2
       +:+ " hPa"]>
  (<["tLowTs" := Rev1.fmtLocalTime h (ts_utc lo)]>
  (<["tLow" := high_low_text (temp_f lo) 2]>
  (<["tHighTs" := Rev1.fmtLocalTime h (ts_utc hi)]>
  (<["tHigh" := high_low_text (temp_f hi) 2]>
  (<["curPresTs" := Rev1.fmtLocalTime h (ts_utc cur)]>
  (<["curHumTs" := Rev1.fmtLocalTime h (ts_utc cur)]>
  (<["curTempTs" := Rev1.fmtLocalTime h (ts_utc cur)]>
  (<["curPres" := fmt (pressure_hpa cur) 2 +:+ " hPa"]>
  (<["curHum" := fmt (humidity_pct cur) 2 +:+ " %"]>
  (<["curTemp" := fmt (temp_f cur) 2 +:+ " °F"]> t)))))))))))).

Definition Rev2_kpi_text (h : host) (cur hi lo : Reading) (delta : jsnum)
    (t : gmap string string) : gmap string string :=
  <["lastUpdated" := "Last updated: " +:+ fmtLocalTime h (ts_utc cur) false]>
  (<["presDelta" := direction_of delta +:+ " " +:+ fmt (Num (Math_abs delta)) 1
       +:+ " hPa"]>
  (<["tLowTs" := "@ " +:+ fmtLocalTime h (ts_utc lo) true]>
  (<["tLow" := high_low_text (temp_f lo) 1]>
  (<["tHighTs" := "@ " +:+ fmtLocalTime h (ts_utc hi) true]>
  (<["tHigh" := high_low_text (temp_f hi) 1]>
  (<["curPres" := fmt (pressure_hpa cur) 1 +:+ " hPa / "
       +:+ fmt (Num (js_mul (pressure_hpa cur) (Num 0.02953))) 1
       +:+ " inHg"]>
  (<["curHum" := fmt (humidity_pct cur) 1 +:+ " %"]>
  (<["curTemp" := fmt (temp_f cur) 1 +:+ " °F"]> t)))))))).

Definition Rev3_kpi_text (h : host) (cur hi lo : Reading) (delta : jsnum)
    (t : gmap string string) : gmap string string :=
  <["lastUpdated" := "Last updated: " +:+ fmtLocalTime h (ts_utc cur) false]>
  (<["presDelta" := direction_of delta +:+ " " +:+ fmt (Num (Math_abs delta)) 1
       +:+ " hPa / "
       +:+ fmt (Num (Math_abs (Num (js_mul delta (Num Rev3.PRESSURE_HPA_TO_INHG))))) 1
       +:+ " inHg"]>
  (<["tLowTs" := "@ " +:+ fmtLocalTime h (ts_utc lo) true]>
  (<["tLow" := high_low_text (temp_f lo) 1]>
  (<["tHighTs" := "@ " +:+ fmtLocalTime h (ts_utc hi) true]>
  (<["tHigh" := high_low_text (temp_f hi) 1]>
  (<["curPres" := fmt (pressure_hpa cur) 1 +:+ " hPa / "
       +:+ fmt (Num (js_mul (pressure_hpa cur) (Num Rev3.PRESSURE_HPA_TO_INHG))) 1
       +:+ " inHg"]>
  (<["curHum" := fmt (humidity_pct cur) 1 +:+ " %"]>
  (<["curTemp" := fmt (temp_f cur) 1 +:+ " °F"]> t)))))))).

(** The part of [refresh] after the KPIs, by revision. *)
Definition Rev1_charts_stage (ts : jsobj TimeSeries) : M unit :=
  tempPoints <- lift (points_of ts "temp_f" temp_f) ;;
  humPoints <- lift (points_of ts "humidity_pct" humidity_pct) ;;
  presPoints <- lift (points_of ts "pressure_hpa" pressure_hpa) ;;
  Rev1.charts_7d tempPoints humPoints presPoints.

Definition Rev2_charts_stage (ts : jsobj TimeSeries) : M unit :=
  tempPoints <- lift (points_of ts "temp_f" temp_f) ;;
  humPoints <- lift (points_of ts "humidity_pct" humidity_pct) ;;
  presPoints <- lift (points_of ts "pressure_hpa" pressure_hpa) ;;
  Rev2.charts_7d tempPoints humPoints presPoints.

Definition Rev3_charts_stage (h : host) (ts : jsobj TimeSeries) : M unit :=
  tempPoints <- lift (points_of ts "temp_f" temp_f) ;;
  humPoints <- lift (points_of ts "humidity_pct" humidity_pct) ;;
  presPoints <- lift (points_of ts "pressure_hpa" pressure_hpa) ;;
  let cutoff := PrimFloat.sub (Date_now h) Rev3.day_ms in
  ts24 <- lift (Rev3.last_24h h ts cutoff) ;;
  temp24Points <- lift (points_of ts24 "temp_f" temp_f) ;;
  pres24Points <- lift (points_of ts24 "pressure_hpa" pressure_hpa) ;;
  Rev3.charts_24h temp24Points pres24Points ;;;
  Rev3.charts_7d tempPoints humPoints presPoints.

(** A piece of script that writes no text field. *)
Definition keeps_text {A} (c : M A) : Prop :=
  forall p, text (snd (c p)) = text p.

(** ** Example worlds *)

(** A browser whose clock reads 2024-01-01 13:00 UTC and whose parser
    reads every timestamp as noon of that day. *)
Definition example_host : host :=
  mkHost (fun _ => 1704110400000%float) 1704114000000%float
         (fun _ => "1/1/2024, 12:00:00 PM"%string) (fun _ => "12:00 PM"%string).

(** An endpoint that answers one URL; any other request fails. *)
Definition serve {A} (path : string) (r : fetched A) (url : string) : fetched A :=
  if String.eqb url path then r else Rejected (TypeError "Failed to fetch").

Definition ok_response {A} (a : A) : fetched A :=
  Responded (mkResponse 200 "" (Ok a)).

Definition world_of (summary : fetched (jsobj Summary))
    (ts : fetched (jsobj TimeSeries)) (first : bool) : world :=
  mkWorld example_host (serve "/api/summary" summary)
    (serve "/api/timeseries?days=7" ts) first.

(** The reading and summary of the end-to-end scenarios. *)
Definition scenario_reading : Reading :=
  mkReading (Str "2024-01-01T12:00:00Z") (Num 72.34) (Num 45.6) (Num 1015.2).

Definition scenario_summary (delta : jsnum) : Summary :=
  mkSummary (Obj scenario_reading) (Obj scenario_reading) (Obj scenario_reading)
    delta (Obj scenario_reading).

Definition scenario_world (delta : jsnum) : world :=
  world_of (ok_response (Obj (scenario_summary delta)))
           (ok_response (Obj [Obj scenario_reading])) true.

(** A summary whose current pressure is [null]. *)
Definition null_pressure_world : world :=
  world_of
    (ok_response (Obj (mkSummary
       (Obj (mkReading (Str "2024-01-01T12:00:00Z") (Num 72.34) (Num 45.6) NumNull))
       (Obj scenario_reading) (Obj scenario_reading) (Num 0) (Obj scenario_reading))))
    (ok_response (Obj [])) true.

(** [delta == 0] *)
Definition js_eq_zero (delta : jsnum) : bool :=
  match delta with
  | Num f => PrimFloat.eqb f 0
  | _ => false
  end.

(** ** Charts *)

(** What [chart.data.datasets[0].data = pts; chart.update()] does to a
    chart object. *)
Definition redraw_with (pts : list point) (c : chart) : chart :=
  mkChart (canvas c) (label c) (timeUnit c) pts (S (updates c)).

(** Where and how a chart was built: what construction fixes. *)
Definition mount (c : chart) : string * string * string :=
  (canvas c, label c, timeUnit c).

(** One chart per metric and look-back window, in construction order. *)
Definition five_mounts : list (string * string * string) :=
  [("chartTemp24", "Temp (°F)", "hour"); ("chartPres24", "Pressure (hPa)", "hour");
   ("chartTemp", "Temp (°F)", "day"); ("chartHum", "Humidity (%)", "day");
   ("chartPres", "Pressure (hPa)", "day")]%string.

(** The chart variables of two pages refer to the same chart objects in
    the same state. *)
Definition same_charts (p p' : page) : Prop :=
  charts p' = charts p /\
  tempChart p' = tempChart p /\ humChart p' = humChart p /\
  presChart p' = presChart p /\
  temp24Chart p' = temp24Chart p /\ pres24Chart p' = pres24Chart p.

(** Two pages that differ in their text fields at most. *)
Definition same_but_text (p p' : page) : Prop :=
  same_charts p p' /\ console p' = console p /\ intervals p' = intervals p.

(** No chart exists yet. *)
Definition no_charts (p : page) : Prop :=
  charts p = [] /\
  tempChart p = None /\ humChart p = None /\ presChart p = None /\
  temp24Chart p = None /\ pres24Chart p = None.

(** The five charts of the third revision exist, each held by its
    variable. *)
Definition five_charts (p : page) : Prop :=
  temp24Chart p = Some 0%nat /\ pres24Chart p = Some 1%nat /\
  tempChart p = Some 2%nat /\ humChart p = Some 3%nat /\ presChart p = Some 4%nat /\
  map mount (charts p) = five_mounts.

Definition charts_inv (p : page) : Prop := no_charts p \/ five_charts p.

(** The point arrays one cycle of the third revision computes from a
    time series. *)
Record point_arrays := mkPointArrays {
  temp24Points : list point;
  pres24Points : list point;
  tempPoints : list point;
  humPoints : list point;
  presPoints : list point
}.

Definition points_for (h : host) (ts : jsobj TimeSeries) (a : point_arrays) : Prop :=
  points_of ts "temp_f" temp_f = Ok (tempPoints a) /\
  points_of ts "humidity_pct" humidity_pct = Ok (humPoints a) /\
  points_of ts "pressure_hpa" pressure_hpa = Ok (presPoints a) /\
  exists ts24,
    Rev3.last_24h h ts (PrimFloat.sub (Date_now h) Rev3.day_ms) = Ok ts24 /\
    points_of ts24 "temp_f" temp_f = Ok (temp24Points a) /\
    points_of ts24 "pressure_hpa" pressure_hpa = Ok (pres24Points a).

(** The charts after the first rendering, and after a later one. *)
Definition built_charts (a : point_arrays) : list chart :=
  [mkChart "chartTemp24" "Temp (°F)" "hour" (temp24Points a) 0;
   mkChart "chartPres24" "Pressure (hPa)" "hour" (pres24Points a) 0;
   mkChart "chartTemp" "Temp (°F)" "day" (tempPoints a) 0;
   mkChart "chartHum" "Humidity (%)" "day" (humPoints a) 0;
   mkChart "chartPres" "Pressure (hPa)" "day" (presPoints a) 0].

Definition redrawn_charts (a : point_arrays) (cs : list chart) : list chart :=
  alter (redraw_with (presPoints a)) 4%nat
    (alter (redraw_with (humPoints a)) 3%nat
      (alter (redraw_with (tempPoints a)) 2%nat
        (alter (redraw_with (pres24Points a)) 1%nat
          (alter (redraw_with (temp24Points a)) 0%nat cs)))).

(** ** Worlds that fail *)

(** The summary endpoint answers 500; the time series is fine. *)
Definition summary_500_world : world :=
  world_of (Responded (mkResponse 500 "Internal Server Error"
                         (Err (mkError "SyntaxError" "Unexpected token 'I'"))))
           (ok_response (Obj [Obj scenario_reading])) true.

(** The summary endpoint answers 500 and the time series, settling
    first, is not JSON. *)
Definition summary_500_bad_json_world : world :=
  world_of (Responded (mkResponse 500 "Internal Server Error"
                         (Err (mkError "SyntaxError" "Unexpected token 'I'"))))
           (Responded (mkResponse 200 "<html>"
                         (Err (mkError "SyntaxError" "Unexpected token '<'"))))
           false.

(** The points of a series of readings for one field. *)
Definition points (get : Reading -> jsnum) (rs : list Reading) : list point :=
  map (fun r => mkPoint (ts_utc r) (get r)) rs.

(** The readings of the last 24 hours of a series. *)
Definition recent (h : host) (rs : list Reading) : list Reading :=
  List.filter
    (fun r => PrimFloat.leb (PrimFloat.sub (Date_now h) Rev3.day_ms)
                (Date_getTime h (ts_utc r))) rs.

(** The three 7-day chart variables are all unset or all set. *)
Definition vars7_ok (p : page) : Prop :=
  tempChart p = None \/
  exists i j k, tempChart p = Some i /\ humChart p = Some j /\ presChart p = Some k.

(** ** The text a cycle leaves, whatever its outcome *)

(** The text fields after a cycle of the second and of the third revision
    as a function of the world and of the fields before: the writes made
    until the first property read that throws. *)
Definition Rev2_text_effect (w : world) (t : gmap string string) : gmap string string :=
  let h := the_host w in
  match fetch_stage w with
  | Ok (Obj s, _) =>
      match current s with
      | Obj cur =>
          let t1 :=
            <["curPres" := fmt (pressure_hpa cur) 1 +:+ " hPa / "
                 +:+ fmt (Num (js_mul (pressure_hpa cur) (Num 0.02953))) 1 +:+ " inHg"]>
            (<["curHum" := fmt (humidity_pct cur) 1 +:+ " %"]>
            (<["curTemp" := fmt (temp_f cur) 1 +:+ " °F"]> t)) in
          match temp_24h_high s with
          | Obj hi =>
              let t2 :=
                <["tHighTs" := "@ " +:+ fmtLocalTime h (ts_utc hi) true]>
                (<["tHigh" := high_low_text (temp_f hi) 1]> t1) in
              match temp_24h_low s with
              | Obj lo => Rev2_kpi_text h cur hi lo (pressure_change_hpa s) t
              | _ => t2
              end
          | _ => t1
          end
      | _ => t
      end
  | _ => t
  end.

Definition Rev3_text_effect (w : world) (t : gmap string string) : gmap string string :=
  let h := the_host w in
  match fetch_stage w with
  | Ok (Obj s, _) =>
      match current s with
      | Obj cur =>
          let t1 :=
            <["curPres" := fmt (pressure_hpa cur) 1 +:+ " hPa / "
                 +:+ fmt (Num (js_mul (pressure_hpa cur) (Num Rev3.PRESSURE_HPA_TO_INHG))) 1
                 +:+ " inHg"]>
            (<["curHum" := fmt (humidity_pct cur) 1 +:+ " %"]>
            (<["curTemp" := fmt (temp_f cur) 1 +:+ " °F"]> t)) in
          match temp_24h_high s with
          | Obj hi =>
              let t2 :=
                <["tHighTs" := "@ " +:+ fmtLocalTime h (ts_utc hi) true]>
                (<["tHigh" := high_low_text (temp_f hi) 1]> t1) in
              match temp_24h_low s with
              | Obj lo => Rev3_kpi_text h cur hi lo (pressure_change_hpa s) t
              | _ => t2
              end
          | _ => t1
          end
      | _ => t
      end
  | _ => t
  end.

(** The ids of the text fields the later revisions write. *)
Definition kpi_ids : list string :=
  ["curTemp"; "curHum"; "curPres"; "tHigh"; "tHighTs"; "tLow"; "tLowTs";
   "presDelta"; "lastUpdated"]%string.

(** The point arrays of a well-formed series of readings. *)
Definition arrays_of (h : host) (rs : list Reading) : point_arrays :=
  mkPointArrays (points temp_f (recent h rs)) (points pressure_hpa (recent h rs))
    (points temp_f rs) (points humidity_pct rs) (points pressure_hpa rs).

(** The text of the three current KPIs of the third revision. *)
Definition Rev3_current_text (cur : Reading) (t : gmap string string)
  : gmap string string :=
  <["curPres" := fmt (pressure_hpa cur) 1 +:+ " hPa / "
       +:+ fmt (Num (js_mul (pressure_hpa cur) (Num Rev3.PRESSURE_HPA_TO_INHG))) 1
       +:+ " inHg"]>
  (<["curHum" := fmt (humidity_pct cur) 1 +:+ " %"]>
  (<["curTemp" := fmt (temp_f cur) 1 +:+ " °F"]> t)).

(** The fetch stage succeeds and the summary, its current reading and
    its 24-hour high and low are objects: the KPI part of a cycle then
    runs to its last write, the one of the status field. *)
Definition kpis_readable (w : world) : bool :=
  match fetch_stage w with
  | Ok (Obj s, _) =>
      match current s, temp_24h_high s, temp_24h_low s with
      | Obj _, Obj _, Obj _ => true
      | _, _, _ => false
      end
  | _ => false
  end.

(** A summary whose 24-hour high is [null]. *)
Definition null_high_world : world :=
  world_of
    (ok_response (Obj (mkSummary (Obj scenario_reading) ObjNull (Obj scenario_reading)
                         (Num 0) (Obj scenario_reading))))
    (ok_response (Obj [])) true.

(** A time series with a [null] element. *)
Definition null_element_world : world :=
  world_of (ok_response (Obj (scenario_summary (Num 0))))
           (ok_response (Obj [Obj scenario_reading; ObjNull])) true.

(** A world with the scenario's summary and a given series. *)
Definition series_world (rs : list Reading) : world :=
  world_of (ok_response (Obj (scenario_summary (Num 0))))
           (ok_response (Obj (map Obj rs))) true.

(** * Proofs *)

Arguments digit_char : simpl never.
Arguments is_digit : simpl never.
Arguments digit_val : simpl never.

Lemma append_cons c (s1 s2 : string) : String c s1 +:+ s2 = String c (s1 +:+ s2).
Proof. reflexivity. Qed.

Lemma append_assoc (s1 s2 s3 : string) : (s1 +:+ s2) +:+ s3 = s1 +:+ (s2 +:+ s3).
Proof.
  induction s1 as [|c s1 IH]; [reflexivity|].
  rewrite !append_cons. now rewrite IH.
Qed.

Lemma append_nil_r (s : string) : s +:+ "" = s.
Proof.
  induction s as [|c s IH]; [reflexivity|].
  rewrite append_cons. now rewrite IH.
Qed.

Lemma length_append (s1 s2 : string) :
  String.length (s1 +:+ s2) = (String.length s1 + String.length s2)%nat.
Proof.
  induction s1 as [|c s1 IH]; [reflexivity|].
  rewrite append_cons. cbn [String.length]. now rewrite IH.
Qed.

Lemma digit_char_spec d :
  0 <= d < 10 -> is_digit (digit_char d) = true /\ digit_val (digit_char d) = d.
Proof.
  intros Hd. unfold is_digit, digit_val, digit_char.
  rewrite nat_ascii_embedding by lia.
  split.
  - apply andb_true_iff. split; apply Nat.leb_le; lia.
  - lia.
Qed.


Lemma digit_char_any d : is_digit (digit_char d) = true \/ d >= 10.
Proof.
  destruct (Z_lt_ge_dec d 10) as [Hlt|Hge]; [left|right; exact Hge].
  destruct (Z_lt_ge_dec d 0) as [Hneg|Hpos].
  - unfold digit_char. replace (Z.to_nat d) with 0%nat by lia. reflexivity.
  - apply digit_char_spec. lia.
Qed.

Lemma decimal_go_head fuel : forall n acc,
  (fuel = 0%nat -> head_digit acc = true) ->
  head_digit (decimal_go fuel n acc) = true.
Proof.
  induction fuel as [|fuel IH]; intros n acc Hacc; cbn [decimal_go].
  - now apply Hacc.
  - destruct (Z.ltb_spec n 10) as [Hlt|Hge].
    + cbn [head_digit]. destruct (digit_char_any n) as [H|H]; [exact H|lia].
    + apply IH. intros _. cbn [head_digit].
      apply digit_char_spec. apply Z.mod_pos_bound. lia.
Qed.

Lemma decimal_head n : head_digit (decimal n) = true.
Proof. unfold decimal. apply decimal_go_head. discriminate. Qed.

Lemma decimal_go_digits fuel : forall n acc,
  0 <= n -> all_digits acc = true -> all_digits (decimal_go fuel n acc) = true.
Proof.
  induction fuel as [|fuel IH]; intros n acc Hn Hacc; cbn [decimal_go]; [exact Hacc|].
  destruct (Z.ltb_spec n 10) as [Hlt|Hge].
  - cbn [all_digits]. rewrite Hacc.
    now rewrite (proj1 (digit_char_spec n (conj Hn Hlt))).
  - apply IH; [apply Z.div_pos; lia|].
    cbn [all_digits]. rewrite Hacc.
    now rewrite (proj1 (digit_char_spec (n mod 10) (Z.mod_pos_bound n 10 eq_refl))).
Qed.

Lemma decimal_digits n : 0 <= n -> all_digits (decimal n) = true.
Proof. intros Hn. unfold decimal. now apply decimal_go_digits. Qed.

Lemma decimal_go_acc fuel : forall n acc,
  decimal_go fuel n acc = decimal_go fuel n "" +:+ acc.
Proof.
  induction fuel as [|fuel IH]; intros n acc; cbn [decimal_go]; [reflexivity|].
  destruct (n <? 10); [reflexivity|].
  rewrite IH. rewrite (IH _ (String _ "")).
  now rewrite append_assoc.
Qed.

Lemma digits_value_from_app s1 : forall acc s2,
  digits_value_from acc (s1 +:+ s2) = digits_value_from (digits_value_from acc s1) s2.
Proof.
  induction s1 as [|c s1 IH]; intros acc s2; [reflexivity|].
  rewrite append_cons. cbn [digits_value_from]. apply IH.
Qed.

Lemma decimal_go_value fuel : forall n,
  0 <= n < 2 ^ Z.of_nat fuel -> (0 < fuel)%nat ->
  digits_value (decimal_go fuel n "") = n.
Proof.
  induction fuel as [|fuel IH]; intros n Hn Hf; [lia|]. cbn [decimal_go].
  destruct (Z.ltb_spec n 10) as [Hlt|Hge].
  - unfold digits_value. cbn [digits_value_from].
    rewrite (proj2 (digit_char_spec n ltac:(lia))). lia.
  - rewrite decimal_go_acc. unfold digits_value. rewrite digits_value_from_app.
    assert (Hdiv : 0 <= n / 10 < 2 ^ Z.of_nat fuel).
    { split; [apply Z.div_pos; lia|].
      apply Z.div_lt_upper_bound; [lia|].
      rewrite Nat2Z.inj_succ, Z.pow_succ_r in Hn by lia. lia. }
    assert (Hfuel : (0 < fuel)%nat).
    { destruct fuel; [change (2 ^ Z.of_nat 0) with 1 in Hdiv|lia].
      assert (n / 10 >= 1) by (apply Z.le_ge; apply Z.div_le_lower_bound; lia). lia. }
    fold (digits_value (decimal_go fuel (n / 10) "")).
    rewrite (IH _ Hdiv Hfuel). cbn [digits_value_from].
    rewrite (proj2 (digit_char_spec (n mod 10) (Z.mod_pos_bound n 10 eq_refl))).
    pose proof (Z.div_mod n 10). lia.
Qed.

Lemma decimal_value n : 0 <= n -> digits_value (decimal n) = n.
Proof.
  intros Hn. unfold decimal. apply decimal_go_value; [|lia].
  split; [exact Hn|].
  destruct (Z.eq_dec n 0) as [->|Hnz]; [reflexivity|].
  rewrite Nat2Z.inj_succ, Z2Nat.id by apply Z.log2_nonneg.
  apply Z.log2_spec. lia.
Qed.

Lemma all_digits_app (s1 s2 : string) :
  all_digits (s1 +:+ s2) = all_digits s1 && all_digits s2.
Proof.
  induction s1 as [|c s1 IH]; [reflexivity|].
  rewrite append_cons. cbn [all_digits]. rewrite IH. now rewrite andb_assoc.
Qed.

Lemma all_digits_zeros k : all_digits (zeros k) = true.
Proof. induction k as [|k IH]; [reflexivity|]. cbn [zeros all_digits]. now rewrite IH. Qed.

Lemma length_zeros k : String.length (zeros k) = k.
Proof. induction k as [|k IH]; [reflexivity|]. cbn [zeros String.length]. now rewrite IH. Qed.

Lemma digits_value_zeros k (s : string) :
  digits_value (zeros k +:+ s) = digits_value s.
Proof.
  unfold digits_value. rewrite digits_value_from_app. f_equal.
  induction k as [|k IH]; [reflexivity|]. cbn [zeros digits_value_from]. exact IH.
Qed.

Lemma substring_all (s : string) : substring 0 (String.length s) s = s.
Proof.
  induction s as [|c s IH]; [reflexivity|].
  cbn [String.length substring]. now rewrite IH.
Qed.

Lemma substring_split (s : string) : forall i,
  (i <= String.length s)%nat ->
  substring 0 i s +:+ substring i (String.length s - i) s = s.
Proof.
  induction s as [|c s IH]; intros i Hi.
  - destruct i; [reflexivity|cbn [String.length] in Hi; lia].
  - destruct i as [|i].
    + rewrite Nat.sub_0_r. change (substring 0 0 (String c s)) with ""%string.
      change ("" +:+ ?x) with x. apply substring_all.
    + cbn [String.length Nat.sub substring]. rewrite append_cons. f_equal.
      apply IH. cbn [String.length] in Hi. lia.
Qed.

Lemma length_substring (s : string) : forall i j,
  (i + j <= String.length s)%nat -> String.length (substring i j s) = j.
Proof.
  induction s as [|c s IH]; intros i j Hij; cbn [String.length] in Hij.
  - assert (i = 0%nat) by lia. assert (j = 0%nat) by lia. now subst.
  - destruct i as [|i].
    + destruct j as [|j]; [reflexivity|].
      cbn [substring String.length]. f_equal. apply IH. lia.
    + cbn [substring]. apply IH. lia.
Qed.

Lemma all_digits_substring (s : string) : forall i j,
  all_digits s = true -> all_digits (substring i j s) = true.
Proof.
  induction s as [|c s IH]; intros i j Hs.
  - now destruct i, j.
  - cbn [all_digits] in Hs. apply andb_true_iff in Hs as [Hc Hs].
    destruct i as [|i].
    + destruct j as [|j]; [reflexivity|].
      cbn [substring all_digits]. rewrite Hc. now apply IH.
    + cbn [substring]. now apply IH.
Qed.

Lemma head_digit_substring (s : string) j :
  head_digit s = true -> head_digit (substring 0 (S j) s) = true.
Proof. destruct s as [|c s]; [discriminate|]. now cbn [substring head_digit]. Qed.

Lemma head_digit_app (s1 s2 : string) :
  head_digit s1 = true -> head_digit (s1 +:+ s2) = true.
Proof. destruct s1 as [|c s1]; [discriminate|]. now rewrite append_cons. Qed.

Lemma head_digit_zeros_app k (s : string) :
  head_digit s = true -> head_digit (zeros k +:+ s) = true.
Proof. destruct k as [|k]; [trivial|]. intros _. reflexivity. Qed.

Lemma fixed_digits_spec n f :
  0 <= n -> 0 <= f -> fixed_point_text (fixed_digits n f) n f.
Proof.
  intros Hn Hf. unfold fixed_digits, fixed_point_text.
  set (m := if n =? 0 then "0"%string else decimal n).
  assert (Hm : head_digit m = true /\ all_digits m = true /\ digits_value m = n).
  { subst m. destruct (Z.eqb_spec n 0) as [->|Hnz].
    - now vm_compute.
    - repeat split; [apply decimal_head|now apply decimal_digits|now apply decimal_value]. }
  destruct Hm as (Hhead & Hdig & Hval).
  destruct (Z.eqb_spec f 0) as [->|Hfz].
  - exists m, ""%string. change (0 =? 0) with true. cbv iota.
    rewrite append_nil_r. now repeat split.
  - set (k := Z.of_nat (String.length m)).
    set (m' := if k <=? f then zeros (Z.to_nat (f + 1 - k)) +:+ m else m).
    set (k' := if k <=? f then f + 1 else k).
    assert (Hm' : head_digit m' = true /\ all_digits m' = true /\
                  digits_value m' = n /\ Z.of_nat (String.length m') = k' /\ f < k').
    { subst m' k'. destruct (Z.leb_spec k f) as [Hle|Hgt].
      - repeat split.
        + now apply head_digit_zeros_app.
        + now rewrite all_digits_app, all_digits_zeros.
        + now rewrite digits_value_zeros.
        + rewrite length_append, length_zeros. subst k. lia.
        + lia.
      - now repeat split. }
    destruct Hm' as (Hh' & Hd' & Hv' & Hl' & Hfk).
    exists (substring 0 (Z.to_nat (k' - f)) m'),
           (substring (Z.to_nat (k' - f)) (Z.to_nat f) m').
    assert (Hsplit := substring_split m' (Z.to_nat (k' - f)) ltac:(lia)).
    replace (String.length m' - Z.to_nat (k' - f))%nat with (Z.to_nat f) in Hsplit by lia.
    repeat split.
    + replace (Z.to_nat (k' - f)) with (S (Z.to_nat (k' - f - 1))) by lia.
      now apply head_digit_substring.
    + now apply all_digits_substring.
    + now apply all_digits_substring.
    + rewrite length_substring by lia. lia.
    + now rewrite Hsplit.
Qed.

Lemma nearest_scaled_spec num den f :
  0 < den ->
  let n := nearest_scaled num den f in
  2 * den * n - den <= 2 * num * 10 ^ f < 2 * den * n + den.
Proof.
  intros Hden n. subst n. unfold nearest_scaled.
  pose proof (Z.div_mod (2 * num * 10 ^ f + den) (2 * den) ltac:(lia)) as Hdm.
  pose proof (Z.mod_pos_bound (2 * num * 10 ^ f + den) (2 * den) ltac:(lia)) as Hmb.
  lia.
Qed.

Lemma nearest_scaled_nonneg num den f :
  0 <= num -> 0 < den -> 0 <= f -> 0 <= nearest_scaled num den f.
Proof.
  intros Hnum Hden Hf. unfold nearest_scaled.
  apply Z.div_pos; [|lia].
  assert (0 <= 10 ^ f) by (apply Z.pow_nonneg; lia). nia.
Qed.

(** ** [toFixed] and [fmtNum] *)

Lemma Prim2SF_nan_iff f : is_nan f = true <-> Prim2SF f = S754_nan.
Proof.
  unfold Prim2SF. destruct (is_nan f); split; try reflexivity; try discriminate.
  destruct (is_zero f); [discriminate|].
  destruct (is_infinity f); [discriminate|].
  destruct (Z.frexp f) as [r ex].
  destruct (shr_fexp prec emax (Uint63Axioms.to_Z (normfr_mantissa r)) (ex - prec) loc_Exact)
    as [sh e'].
  destruct (shr_m sh); discriminate.
Qed.

Lemma is_nan_unique f : is_nan f = true -> f = nan.
Proof.
  intros H. apply Prim2SF_inj. apply Prim2SF_nan_iff in H. now rewrite H.
Qed.

Lemma float_den_pos e : 0 < float_den e.
Proof. unfold float_den. apply Z.pow_pos_nonneg; lia. Qed.

Lemma float_num_pos m e : 0 < float_num m e.
Proof.
  unfold float_num. apply Z.mul_pos_pos; [lia|]. apply Z.pow_pos_nonneg; lia.
Qed.

Lemma head_digit_plain (s : string) :
  head_digit s = true -> s <> placeholder /\ has_minus s = false.
Proof.
  destruct s as [|c s]; [discriminate|]. cbn [head_digit]. intros Hc.
  split.
  - intros Heq. injection Heq as Hc' _. subst c. now vm_compute in Hc.
  - unfold has_minus.
    destruct c as [[] [] [] [] [] [] [] []]; try reflexivity; now vm_compute in Hc.
Qed.

Lemma number_to_string_large_head X sf :
  head_digit (number_to_string_large X sf) = true.
Proof.
  unfold number_to_string_large.
  destruct (shortest_go 17 1 X (Z.of_nat (String.length (decimal X))) sf) as [s n].
  pose proof (decimal_head s) as Hs.
  destruct (decimal s) as [|c [|c' rest]]; [discriminate| |];
    rewrite append_cons; exact Hs.
Qed.

Lemma fixed_digits_head n f : 0 <= n -> 0 <= f -> head_digit (fixed_digits n f) = true.
Proof.
  intros Hn Hf. destruct (fixed_digits_spec n f Hn Hf) as (a & b & -> & Ha & _).
  now apply head_digit_app.
Qed.

Lemma toFixed_range_error x d :
  d < 0 \/ 100 < d ->
  toFixed x d = Err (RangeError "toFixed() digits argument must be between 0 and 100").
Proof.
  intros Hd. unfold toFixed.
  destruct (Z.ltb_spec d 0), (Z.ltb_spec 100 d); try reflexivity; lia.
Qed.

Lemma toFixed_in_range x d :
  0 <= d <= 100 ->
  toFixed x d =
    match Prim2SF x with
    | S754_nan => Ok "NaN"%string
    | S754_infinity s => Ok (if s then "-Infinity" else "Infinity")%string
    | S754_zero _ => Ok (fixed_digits 0 d)
    | S754_finite s m e =>
        if 10 ^ 21 * float_den e <=? float_num m e
        then Ok ((if s then "-" else "")
                 +:+ number_to_string_large (float_num m e) (S754_finite false m e))
        else Ok ((if s then "-" else "")
                 +:+ fixed_digits (nearest_scaled (float_num m e) (float_den e) d) d)
    end.
Proof.
  intros Hd. unfold toFixed.
  destruct (Z.ltb_spec d 0), (Z.ltb_spec 100 d); try lia. reflexivity.
Qed.

Lemma toFixed_total x d : 0 <= d <= 100 -> exists s, toFixed x d = Ok s.
Proof.
  intros Hd. rewrite toFixed_in_range by exact Hd.
  destruct (Prim2SF x) as [s|s| |s m e]; eauto.
  destruct (10 ^ 21 * float_den e <=? float_num m e); eauto.
Qed.

Lemma toFixed_not_placeholder x d s : toFixed x d = Ok s -> s <> placeholder.
Proof.
  intros H.
  destruct (Z_lt_ge_dec d 0) as [Hlt|Hge];
    [rewrite toFixed_range_error in H by lia; discriminate|].
  destruct (Z_lt_ge_dec 100 d) as [Hgt|Hle];
    [rewrite toFixed_range_error in H by lia; discriminate|].
  rewrite toFixed_in_range in H by lia.
  destruct (Prim2SF x) as [sg|sg| |sg m e].
  - injection H as <-. apply head_digit_plain, fixed_digits_head; lia.
  - injection H as <-. destruct sg; discriminate.
  - injection H as <-. discriminate.
  - pose proof (float_den_pos e). pose proof (float_num_pos m e).
    destruct (10 ^ 21 * float_den e <=? float_num m e); injection H as <-.
    + destruct sg; [discriminate|].
      apply head_digit_plain, number_to_string_large_head.
    + destruct sg; [discriminate|].
      apply head_digit_plain, fixed_digits_head; [|lia].
      apply nearest_scaled_nonneg; lia.
Qed.

(** The sign bit of a float, NaN counting as unsigned. *)
Lemma toFixed_unsigned x d s :
  toFixed x d = Ok s ->
  match Prim2SF x with
  | S754_infinity sg | S754_finite sg _ _ => sg = false
  | _ => True
  end ->
  has_minus s = false.
Proof.
  intros H Hsg.
  destruct (Z_lt_ge_dec d 0) as [Hlt|Hge];
    [rewrite toFixed_range_error in H by lia; discriminate|].
  destruct (Z_lt_ge_dec 100 d) as [Hgt|Hle];
    [rewrite toFixed_range_error in H by lia; discriminate|].
  rewrite toFixed_in_range in H by lia.
  destruct (Prim2SF x) as [sg|sg| |sg m e].
  - injection H as <-. apply head_digit_plain, fixed_digits_head; lia.
  - subst sg. now injection H as <-.
  - now injection H as <-.
  - subst sg. pose proof (float_den_pos e). pose proof (float_num_pos m e).
    destruct (10 ^ 21 * float_den e <=? float_num m e); injection H as <-.
    + apply head_digit_plain, number_to_string_large_head.
    + apply head_digit_plain, fixed_digits_head; [|lia].
      apply nearest_scaled_nonneg; lia.
Qed.

Lemma toFixed_renders_fixed x d :
  in_fixed_range x = true -> 0 <= d <= 100 ->
  exists out, toFixed x d = Ok out /\ renders_fixed x d out.
Proof.
  intros Hr Hd. rewrite toFixed_in_range by exact Hd.
  unfold in_fixed_range in Hr. unfold renders_fixed.
  destruct (Prim2SF x) as [sg|sg| |sg m e]; try discriminate.
  - eexists. split; [reflexivity|]. apply fixed_digits_spec; lia.
  - apply Z.ltb_lt in Hr.
    destruct (Z.leb_spec (10 ^ 21 * float_den e) (float_num m e)) as [Hge|_]; [lia|].
    pose proof (float_den_pos e) as Hden. pose proof (float_num_pos m e) as Hnum.
    eexists. split; [reflexivity|].
    exists (fixed_digits (nearest_scaled (float_num m e) (float_den e) d) d),
           (nearest_scaled (float_num m e) (float_den e) d).
    split; [reflexivity|]. split.
    + apply fixed_digits_spec; [|lia]. apply nearest_scaled_nonneg; lia.
    + now apply nearest_scaled_spec.
Qed.

Lemma fmtNum_number f d :
  is_nan f = false -> fmtNum (Num f) (Some d) = toFixed f d.
Proof. intros H. unfold fmtNum. cbn [is_null is_undefined Number_isNaN orb]. now rewrite H. Qed.

Lemma fmtNum_nan f d : is_nan f = true -> fmtNum (Num f) d = Ok placeholder.
Proof. intros H. unfold fmtNum. cbn [is_null is_undefined Number_isNaN orb]. now rewrite H. Qed.

Lemma fmtNum_total x d : 0 <= d <= 100 -> exists s, fmtNum x (Some d) = Ok s.
Proof.
  intros Hd. destruct x as [| |f]; [now eexists|now eexists|].
  destruct (is_nan f) eqn:Hn.
  - rewrite fmtNum_nan by exact Hn. eauto.
  - rewrite fmtNum_number by exact Hn. now apply toFixed_total.
Qed.

Lemma fmtNum_placeholder_iff x d :
  fmtNum x (Some d) = Ok placeholder <->
  x = NumNull \/ x = NumUndefined \/ Number_isNaN x = true.
Proof.
  split.
  - destruct x as [| |f]; [auto|auto|]. intros H. right; right.
    cbn [Number_isNaN]. destruct (is_nan f) eqn:Hn; [reflexivity|].
    rewrite fmtNum_number in H by exact Hn.
    now apply toFixed_not_placeholder in H.
  - intros [->|[->|H]]; [reflexivity|reflexivity|].
    destruct x as [| |f]; [discriminate|discriminate|]. now apply fmtNum_nan.
Qed.

Lemma has_point_app (a b : string) : has_point (a +:+ "." +:+ b) = true.
Proof.
  induction a as [|c a IH]; [reflexivity|].
  rewrite append_cons. cbn [has_point]. now destruct (Ascii.eqb c ".").
Qed.

(** ** Exponent notation *)

Lemma is_digit_val c : is_digit c = true -> 0 <= digit_val c <= 9.
Proof.
  unfold is_digit, digit_val. intros H. apply andb_true_iff in H as [H1 H2].
  apply Nat.leb_le in H1, H2. lia.
Qed.

Lemma digit_val_zero c : digit_val c = 0 -> c = "0"%char.
Proof.
  unfold digit_val. intros H.
  rewrite <- (ascii_nat_embedding c).
  replace (nat_of_ascii c) with 48%nat by lia. reflexivity.
Qed.

Lemma decimal_go_nonzero fuel : forall n acc,
  1 <= n < 2 ^ Z.of_nat fuel ->
  exists c rest, decimal_go fuel n acc = String c rest /\ c <> "0"%char.
Proof.
  induction fuel as [|fuel IH]; intros n acc Hn.
  - change (2 ^ Z.of_nat 0) with 1 in Hn. lia.
  - cbn [decimal_go]. destruct (Z.ltb_spec n 10) as [Hlt|Hge].
    + eexists _, _. split; [reflexivity|]. intros Hc.
      pose proof (proj2 (digit_char_spec n ltac:(lia))) as Hv.
      rewrite Hc in Hv. vm_compute in Hv. lia.
    + apply IH. split; [apply Z.div_le_lower_bound; lia|].
      apply Z.div_lt_upper_bound; [lia|].
      rewrite Nat2Z.inj_succ, Z.pow_succ_r in Hn by lia. lia.
Qed.

Lemma decimal_nonzero n :
  1 <= n -> exists c rest, decimal n = String c rest /\ c <> "0"%char.
Proof.
  intros Hn. unfold decimal. apply decimal_go_nonzero. split; [exact Hn|].
  rewrite Nat2Z.inj_succ, Z2Nat.id by apply Z.log2_nonneg.
  apply Z.log2_spec. lia.
Qed.

Lemma digits_value_from_linear s : forall acc,
  digits_value_from acc s = acc * 10 ^ Z.of_nat (String.length s) + digits_value s.
Proof.
  unfold digits_value.
  induction s as [|c s IH]; intros acc.
  - cbn [digits_value_from String.length]. change (10 ^ Z.of_nat 0) with 1. lia.
  - cbn [digits_value_from String.length]. rewrite IH, (IH (10 * 0 + digit_val c)).
    rewrite Nat2Z.inj_succ, Z.pow_succ_r by lia. lia.
Qed.

Lemma digits_value_bounds s :
  all_digits s = true -> 0 <= digits_value s < 10 ^ Z.of_nat (String.length s).
Proof.
  induction s as [|c s IH]; intros Hs.
  - unfold digits_value. cbn [digits_value_from String.length].
    change (10 ^ Z.of_nat 0) with 1. lia.
  - cbn [all_digits] in Hs. apply andb_true_iff in Hs as [Hc Hs].
    specialize (IH Hs). apply is_digit_val in Hc.
    unfold digits_value. cbn [digits_value_from String.length].
    rewrite digits_value_from_linear.
    rewrite Nat2Z.inj_succ, Z.pow_succ_r by lia. nia.
Qed.

(** A number has as many decimal digits as its magnitude asks for. *)
Lemma decimal_length n :
  1 <= n ->
  10 ^ (Z.of_nat (String.length (decimal n)) - 1) <= n
    < 10 ^ Z.of_nat (String.length (decimal n)).
Proof.
  intros Hn.
  pose proof (decimal_value n ltac:(lia)) as Hv.
  pose proof (decimal_digits n ltac:(lia)) as Hd.
  split.
  - destruct (decimal_nonzero n Hn) as (c & rest & Heq & Hc).
    rewrite Heq in Hv, Hd |- *. cbn [all_digits] in Hd.
    apply andb_true_iff in Hd as [Hdc Hdr].
    unfold digits_value in Hv. cbn [digits_value_from] in Hv.
    rewrite digits_value_from_linear in Hv.
    pose proof (digits_value_bounds rest Hdr) as Hb.
    pose proof (is_digit_val c Hdc) as Hcv.
    assert (digit_val c <> 0) by (intros H0; now apply Hc, digit_val_zero).
    cbn [String.length]. rewrite Nat2Z.inj_succ.
    replace (Z.succ (Z.of_nat (String.length rest)) - 1)
      with (Z.of_nat (String.length rest)) by lia.
    nia.
  - pose proof (digits_value_bounds _ Hd) as Hb. lia.
Qed.

Lemma shortest_go_range fuel : forall k X N x,
  1 <= k -> k + Z.of_nat fuel <= N -> 10 ^ (N - 1) <= X ->
  1 <= fst (shortest_go fuel k X N x) /\
  (snd (shortest_go fuel k X N x) = N \/ snd (shortest_go fuel k X N x) = N + 1).
Proof.
  induction fuel as [|fuel IH]; intros k X N x Hk HN HX.
  - cbn [shortest_go fst snd]. split; [|now left].
    assert (0 < 10 ^ (N - 1)) by (apply Z.pow_pos_nonneg; lia). lia.
  - cbn [shortest_go].
    assert (Hp : 0 < 10 ^ (N - k)) by (apply Z.pow_pos_nonneg; lia).
    assert (Hle : 10 ^ (N - k) <= 10 ^ (N - 1)) by (apply Z.pow_le_mono_r; lia).
    assert (Hlo : 1 <= X / 10 ^ (N - k)) by (apply Z.div_le_lower_bound; lia).
    destruct (rounds_to (X / 10 ^ (N - k) * 10 ^ (N - k)) x
              || rounds_to ((X / 10 ^ (N - k) + 1) * 10 ^ (N - k)) x).
    + match goal with |- context [if ?b then _ else (_, N)] => destruct b end.
      * destruct (X / 10 ^ (N - k) + 1 =? 10 ^ k); cbn [fst snd];
          (split; [lia|tauto]).
      * cbn [fst snd]. split; [lia|tauto].
    + apply IH; lia.
Qed.

Lemma number_to_string_large_exponent X x :
  10 ^ 21 <= X -> exponent_text (number_to_string_large X x).
Proof.
  intros HX. unfold number_to_string_large.
  pose proof (decimal_length X ltac:(lia)) as [Hlow Hup].
  set (N := Z.of_nat (String.length (decimal X))) in *.
  assert (HN : 22 <= N).
  { assert (21 < N); [|lia]. apply (Z.pow_lt_mono_r_iff 10); lia. }
  pose proof (shortest_go_range 17 1 X N x ltac:(lia) ltac:(lia) Hlow) as [Hs Hn].
  destruct (shortest_go 17 1 X N x) as [s n]. cbn [fst snd] in Hs, Hn.
  destruct (decimal_nonzero s Hs) as (c & rest & Heq & Hc).
  pose proof (decimal_digits s ltac:(lia)) as Hd. rewrite Heq in Hd |- *.
  cbn [all_digits] in Hd. apply andb_true_iff in Hd as [Hdc Hdr].
  assert (Hex : head_digit (decimal (n - 1)) = true /\
                all_digits (decimal (n - 1)) = true /\
                21 <= digits_value (decimal (n - 1))).
  { split; [apply decimal_head|]. split; [apply decimal_digits; lia|].
    rewrite decimal_value by lia. lia. }
  destruct Hex as (He1 & He2 & He3).
  destruct rest as [|c' rest].
  - exists c, ""%string, (decimal (n - 1)). repeat split; assumption.
  - exists c, (String c' rest), (decimal (n - 1)).
    split; [now rewrite !append_cons|]. repeat split; assumption.
Qed.

Lemma toFixed_renders_exponent x d :
  is_large x = true -> 0 <= d <= 100 ->
  exists out, toFixed x d = Ok out /\ renders_exponent x out.
Proof.
  intros Hl Hd. rewrite toFixed_in_range by exact Hd.
  unfold is_large in Hl. unfold renders_exponent.
  destruct (Prim2SF x) as [sg|sg| |sg m e]; try discriminate.
  rewrite Hl. eexists. split; [reflexivity|].
  eexists. split; [reflexivity|].
  apply number_to_string_large_exponent. apply Z.leb_le in Hl.
  pose proof (float_den_pos e). nia.
Qed.

(** A number other than NaN is zero or finite below 10^21 in magnitude,
    finite from 10^21 on, or one of the two infinities. *)
Lemma float_cases f :
  is_nan f = false ->
  in_fixed_range f = true \/ is_large f = true \/ f = infinity \/ f = neg_infinity.
Proof.
  intros Hn. unfold in_fixed_range, is_large.
  destruct (Prim2SF f) as [sg|sg| |sg m e] eqn:Hf.
  - now left.
  - right; right. destruct sg; [right|left]; apply Prim2SF_inj; now rewrite Hf.
  - apply Prim2SF_nan_iff in Hf. congruence.
  - destruct (Z.leb_spec (10 ^ 21 * float_den e) (float_num m e)) as [H|H].
    + right; left. reflexivity.
    + left. now apply Z.ltb_lt.
Qed.

(** C1, as amended.  [fmtNum] returns the placeholder exactly for null,
    undefined and NaN.  Every other number is of one of four kinds.  For
    a number that is zero or finite below 10^21 in magnitude, and a digit
    count from 0 to 100, it returns the fixed-point rendering of the
    number with exactly that many digits after the point.  For the two
    infinities it returns "Infinity" and "-Infinity".  For a finite
    number of magnitude 10^21 or more it returns exponent notation: an
    optional minus sign, one digit other than zero, a point and further
    digits if any, "e+" and an exponent of at least 21.  For a digit
    count outside 0..100 it throws a RangeError, whatever the number. *)
Theorem fmtNum_placeholder_or_fixed (x : jsnum) (d : Z) :
  (fmtNum x (Some d) = Ok placeholder <->
   x = NumNull \/ x = NumUndefined \/ Number_isNaN x = true) /\
  (forall f, x = Num f -> in_fixed_range f = true -> 0 <= d <= 100 ->
     exists out, fmtNum x (Some d) = Ok out /\ renders_fixed f d out) /\
  (x = Num infinity -> 0 <= d <= 100 -> fmtNum x (Some d) = Ok "Infinity"%string) /\
  (x = Num neg_infinity -> 0 <= d <= 100 -> fmtNum x (Some d) = Ok "-Infinity"%string) /\
  (forall f, x = Num f -> is_large f = true -> 0 <= d <= 100 ->
     exists out, fmtNum x (Some d) = Ok out /\ renders_exponent f out) /\
  (forall f, x = Num f -> is_nan f = false -> d < 0 \/ 100 < d ->
     fmtNum x (Some d)
       = Err (RangeError "toFixed() digits argument must be between 0 and 100")) /\
  (forall f, x = Num f -> is_nan f = false ->
     in_fixed_range f = true \/ is_large f = true \/ f = infinity \/ f = neg_infinity).
Proof.
  split; [apply fmtNum_placeholder_iff|].
  split.
  { intros f -> Hr Hd.
    assert (Hn : is_nan f = false).
    { destruct (is_nan f) eqn:Hn; [|reflexivity].
      apply Prim2SF_nan_iff in Hn. unfold in_fixed_range in Hr.
      rewrite Hn in Hr. discriminate. }
    rewrite fmtNum_number by exact Hn. now apply toFixed_renders_fixed. }
  split.
  { intros -> Hd. rewrite fmtNum_number by reflexivity.
    now rewrite toFixed_in_range by exact Hd. }
  split.
  { intros -> Hd. rewrite fmtNum_number by reflexivity.
    now rewrite toFixed_in_range by exact Hd. }
  split.
  { intros f -> Hl Hd.
    assert (Hn : is_nan f = false).
    { destruct (is_nan f) eqn:Hn; [|reflexivity].
      apply Prim2SF_nan_iff in Hn. unfold is_large in Hl.
      rewrite Hn in Hl. discriminate. }
    rewrite fmtNum_number by exact Hn. now apply toFixed_renders_exponent. }
  split.
  { intros f -> Hn Hd. rewrite fmtNum_number by exact Hn.
    now apply toFixed_range_error. }
  intros f _ Hn. now apply float_cases.
Qed.

Lemma fmtNum_placeholder_or_fixed_witness :
  exists out, fmtNum (Num 72.34) (Some 1) = Ok out /\ renders_fixed 72.34 1 out.
Proof.
  apply (proj1 (proj2 (fmtNum_placeholder_or_fixed (Num 72.34) 1)) 72.34%float).
  - reflexivity.
  - vm_compute. reflexivity.
  - lia.
Defined.

(** C1, as stated, fails: infinity is a number other than NaN, and
    [fmtNum] renders it without a decimal point; a number from 10^21 on
    comes out in exponent notation; a digit count above 100 throws. *)
Lemma fmtNum_not_always_fixed :
  Number_isNaN (Num infinity) = false /\
  fmtNum (Num infinity) (Some 2) = Ok "Infinity"%string /\
  has_point "Infinity" = false /\
  fmtNum (Num 1e21) (Some 2) = Ok "1e+21"%string /\
  is_ok (fmtNum (Num 1) (Some 101)) = false.
Proof. vm_compute. repeat split. Qed.

(** ** The KPI part of [refresh] in closed form *)

Lemma fmtNum_fmt x d : 0 <= d <= 100 -> fmtNum x (Some d) = Ok (fmt x d).
Proof. intros Hd. unfold fmt. now destruct (fmtNum_total x d Hd) as [s ->]. Qed.

Ltac kpi_step :=
  first
    [ rewrite fmtNum_fmt by lia
    | progress cbv [bind lift ret prop prop2 set_text fst snd is_null
                    current temp_24h_high temp_24h_low pressure_change_hpa
                    pressure_24h_reference ts_utc temp_f humidity_pct pressure_hpa] ].

Ltac kpi_run Hfetch :=
  cbv [bind lift]; rewrite Hfetch; repeat kpi_step.

Lemma Rev1_refresh_kpis w p cur hi lo delta ref ts :
  fetch_stage w = Ok (Obj (mkSummary (Obj cur) (Obj hi) (Obj lo) delta (Obj ref)), ts) ->
  Rev1.refresh w p =
    Rev1_charts_stage ts (with_text (Rev1_kpi_text (the_host w) cur hi lo delta ref) p).
Proof.
  intros Hfetch. unfold Rev1.refresh, Rev1_charts_stage, Rev1_kpi_text, high_low_text.
  destruct cur as [cts ctemp chum cpres], hi as [hts htemp hhum hpres],
    lo as [lts ltemp lhum lpres], ref as [rts rtemp rhum rpres].
  destruct htemp, ltemp; kpi_run Hfetch; reflexivity.
Qed.

Lemma Rev2_refresh_kpis w p cur hi lo delta ref ts :
  fetch_stage w = Ok (Obj (mkSummary (Obj cur) (Obj hi) (Obj lo) delta ref), ts) ->
  Rev2.refresh w p =
    Rev2_charts_stage ts (with_text (Rev2_kpi_text (the_host w) cur hi lo delta) p).
Proof.
  intros Hfetch. unfold Rev2.refresh, Rev2_charts_stage, Rev2_kpi_text, high_low_text.
  destruct cur as [cts ctemp chum cpres], hi as [hts htemp hhum hpres],
    lo as [lts ltemp lhum lpres].
  destruct htemp, ltemp; kpi_run Hfetch; reflexivity.
Qed.

Lemma Rev3_refresh_kpis w p cur hi lo delta ref ts :
  fetch_stage w = Ok (Obj (mkSummary (Obj cur) (Obj hi) (Obj lo) delta ref), ts) ->
  Rev3.refresh w p =
    Rev3_charts_stage (the_host w) ts
      (with_text (Rev3_kpi_text (the_host w) cur hi lo delta) p).
Proof.
  intros Hfetch. unfold Rev3.refresh, Rev3_charts_stage, Rev3_kpi_text, high_low_text.
  destruct cur as [cts ctemp chum cpres], hi as [hts htemp hhum hpres],
    lo as [lts ltemp lhum lpres].
  destruct htemp, ltemp; kpi_run Hfetch; reflexivity.
Qed.

(** ** The charts part writes no text *)

Lemma keeps_text_ret {A} (a : A) : keeps_text (ret a).
Proof. now intros p. Qed.

Lemma keeps_text_lift {A} (r : result A) : keeps_text (lift r).
Proof. now intros p. Qed.

Lemma keeps_text_throw {A} (e : error) : keeps_text (@throw A e).
Proof. now intros p. Qed.

Lemma keeps_text_bind {A B} (c : M A) (k : A -> M B) :
  keeps_text c -> (forall a, keeps_text (k a)) -> keeps_text (bind c k).
Proof.
  intros Hc Hk p. unfold bind. specialize (Hc p).
  destruct (c p) as [[a|e] p1]; cbn [snd] in *; [|exact Hc].
  now rewrite Hk.
Qed.

Lemma keeps_text_new_Chart ctx lbl u pts : keeps_text (new_Chart ctx lbl u pts).
Proof. now intros p. Qed.

Lemma keeps_text_assign v h : keeps_text (assign v h).
Proof. intros p. now destruct v. Qed.

Lemma keeps_text_set_data c pts : keeps_text (set_data c pts).
Proof. intros p. now destruct c. Qed.

Lemma keeps_text_chart_update c : keeps_text (chart_update c).
Proof. intros p. now destruct c. Qed.

Lemma keeps_text_for_each {A} (l : list A) (body : A -> M unit) :
  (forall a, keeps_text (body a)) -> keeps_text (for_each l body).
Proof.
  intros Hb. induction l as [|a l IH]; cbn [for_each].
  - apply keeps_text_ret.
  - apply keeps_text_bind; [apply Hb|intros _; exact IH].
Qed.

Lemma keeps_text_update_each l : keeps_text (update_each l).
Proof.
  apply keeps_text_for_each. intros [c pts].
  apply keeps_text_bind; [apply keeps_text_set_data|].
  intros _. apply keeps_text_chart_update.
Qed.

Create HintDb frame.
#[local] Hint Resolve keeps_text_ret keeps_text_lift keeps_text_throw
  keeps_text_new_Chart keeps_text_assign keeps_text_set_data
  keeps_text_chart_update keeps_text_update_each : frame.

Ltac keeps_text_tac :=
  repeat first
    [ apply keeps_text_bind; [|intros ?]
    | solve [auto with frame] ].

Lemma keeps_text_Rev1_charts_7d a b c : keeps_text (Rev1.charts_7d a b c).
Proof.
  intros p. unfold Rev1.charts_7d, Rev1.buildLineChart.
  destruct (unset (tempChart p));
    match goal with |- text (snd (?c p)) = _ => enough (keeps_text c) by auto end;
    keeps_text_tac.
Qed.

Lemma keeps_text_Rev2_charts_7d a b c : keeps_text (Rev2.charts_7d a b c).
Proof. exact (keeps_text_Rev1_charts_7d a b c). Qed.

Lemma keeps_text_Rev3_charts_7d a b c : keeps_text (Rev3.charts_7d a b c).
Proof. exact (keeps_text_Rev1_charts_7d a b c). Qed.

Lemma keeps_text_Rev3_charts_24h a b : keeps_text (Rev3.charts_24h a b).
Proof.
  intros p. unfold Rev3.charts_24h, Rev3.buildLineChart.
  destruct (unset (temp24Chart p)).
  - match goal with |- text (snd (?c p)) = _ => enough (keeps_text c) by auto end.
    keeps_text_tac.
  - match goal with |- text (snd (?c p)) = _ => enough (keeps_text c) by auto end.
    repeat (apply keeps_text_bind; [|intros ?]);
      intros q; first [apply keeps_text_set_data|apply keeps_text_chart_update].
Qed.

Lemma keeps_text_Rev1_charts_stage ts : keeps_text (Rev1_charts_stage ts).
Proof.
  unfold Rev1_charts_stage.
  repeat (apply keeps_text_bind; [apply keeps_text_lift|intros ?]).
  apply keeps_text_Rev1_charts_7d.
Qed.

Lemma keeps_text_Rev2_charts_stage ts : keeps_text (Rev2_charts_stage ts).
Proof. exact (keeps_text_Rev1_charts_stage ts). Qed.

Lemma keeps_text_Rev3_charts_stage h ts : keeps_text (Rev3_charts_stage h ts).
Proof.
  unfold Rev3_charts_stage.
  repeat (apply keeps_text_bind; [apply keeps_text_lift|intros ?]).
  apply keeps_text_bind; [apply keeps_text_Rev3_charts_24h|intros _].
  apply keeps_text_Rev3_charts_7d.
Qed.

(** The text fields after a cycle whose summary and readings are objects:
    exactly the KPI texts, whatever happens to the charts. *)
Lemma Rev1_refresh_text w p cur hi lo delta ref ts :
  fetch_stage w = Ok (Obj (mkSummary (Obj cur) (Obj hi) (Obj lo) delta (Obj ref)), ts) ->
  text (snd (Rev1.refresh w p)) = Rev1_kpi_text (the_host w) cur hi lo delta ref (text p).
Proof.
  intros H. rewrite (Rev1_refresh_kpis _ _ _ _ _ _ _ _ H).
  now rewrite keeps_text_Rev1_charts_stage.
Qed.

Lemma Rev2_refresh_text w p cur hi lo delta ref ts :
  fetch_stage w = Ok (Obj (mkSummary (Obj cur) (Obj hi) (Obj lo) delta ref), ts) ->
  text (snd (Rev2.refresh w p)) = Rev2_kpi_text (the_host w) cur hi lo delta (text p).
Proof.
  intros H. rewrite (Rev2_refresh_kpis _ _ _ _ _ _ _ _ H).
  now rewrite keeps_text_Rev2_charts_stage.
Qed.

Lemma Rev3_refresh_text w p cur hi lo delta ref ts :
  fetch_stage w = Ok (Obj (mkSummary (Obj cur) (Obj hi) (Obj lo) delta ref), ts) ->
  text (snd (Rev3.refresh w p)) = Rev3_kpi_text (the_host w) cur hi lo delta (text p).
Proof.
  intros H. rewrite (Rev3_refresh_kpis _ _ _ _ _ _ _ _ H).
  now rewrite keeps_text_Rev3_charts_stage.
Qed.

(** ** What each KPI depends on *)

Ltac lookup_text :=
  cbv [snd with_text text];
  repeat (rewrite lookup_insert_ne by discriminate);
  first [rewrite lookup_insert_eq; reflexivity | reflexivity].

Lemma Rev1_current_kpis w p s ts cur :
  fetch_stage w = Ok (Obj s, ts) -> current s = Obj cur ->
  text (snd (Rev1.refresh w p)) !! "curTemp" = Some (fmt (temp_f cur) 2 +:+ " °F") /\
  text (snd (Rev1.refresh w p)) !! "curHum" = Some (fmt (humidity_pct cur) 2 +:+ " %") /\
  text (snd (Rev1.refresh w p)) !! "curPres" = Some (fmt (pressure_hpa cur) 2 +:+ " hPa").
Proof.
  intros Hfetch Hcur. destruct s as [c hi lo delta ref]. cbn [current] in Hcur. subst c.
  destruct hi as [| |hi], lo as [| |lo], ref as [| |ref];
    try (rewrite (Rev1_refresh_text _ _ _ _ _ _ _ _ Hfetch); unfold Rev1_kpi_text;
         repeat split; lookup_text).
  all: unfold Rev1.refresh; destruct cur as [cts ctemp chum cpres];
    try destruct hi as [hts [| |hf] hhum hpres];
    try destruct lo as [lts [| |lf] lhum lpres];
    kpi_run Hfetch; repeat split; lookup_text.
Qed.

Lemma Rev2_current_kpis w p s ts cur :
  fetch_stage w = Ok (Obj s, ts) -> current s = Obj cur ->
  text (snd (Rev2.refresh w p)) !! "curTemp" = Some (fmt (temp_f cur) 1 +:+ " °F") /\
  text (snd (Rev2.refresh w p)) !! "curHum" = Some (fmt (humidity_pct cur) 1 +:+ " %") /\
  text (snd (Rev2.refresh w p)) !! "curPres" =
    Some (fmt (pressure_hpa cur) 1 +:+ " hPa / "
          +:+ fmt (Num (js_mul (pressure_hpa cur) (Num 0.02953))) 1 +:+ " inHg").
Proof.
  intros Hfetch Hcur. destruct s as [c hi lo delta ref]. cbn [current] in Hcur. subst c.
  destruct hi as [| |hi], lo as [| |lo];
    try (rewrite (Rev2_refresh_text _ _ _ _ _ _ _ _ Hfetch); unfold Rev2_kpi_text;
         repeat split; lookup_text).
  all: unfold Rev2.refresh; destruct cur as [cts ctemp chum cpres];
    try destruct hi as [hts [| |hf] hhum hpres];
    kpi_run Hfetch; repeat split; lookup_text.
Qed.

Lemma Rev3_current_kpis w p s ts cur :
  fetch_stage w = Ok (Obj s, ts) -> current s = Obj cur ->
  text (snd (Rev3.refresh w p)) !! "curTemp" = Some (fmt (temp_f cur) 1 +:+ " °F") /\
  text (snd (Rev3.refresh w p)) !! "curHum" = Some (fmt (humidity_pct cur) 1 +:+ " %") /\
  text (snd (Rev3.refresh w p)) !! "curPres" =
    Some (fmt (pressure_hpa cur) 1 +:+ " hPa / "
          +:+ fmt (Num (js_mul (pressure_hpa cur) (Num Rev3.PRESSURE_HPA_TO_INHG))) 1
          +:+ " inHg").
Proof.
  intros Hfetch Hcur. destruct s as [c hi lo delta ref]. cbn [current] in Hcur. subst c.
  destruct hi as [| |hi], lo as [| |lo];
    try (rewrite (Rev3_refresh_text _ _ _ _ _ _ _ _ Hfetch); unfold Rev3_kpi_text;
         repeat split; lookup_text).
  all: unfold Rev3.refresh; destruct cur as [cts ctemp chum cpres];
    try destruct hi as [hts [| |hf] hhum hpres];
    kpi_run Hfetch; repeat split; lookup_text.
Qed.

Lemma Rev1_delta_kpi w p cur hi lo delta ref ts :
  fetch_stage w = Ok (Obj (mkSummary (Obj cur) (Obj hi) (Obj lo) delta ref), ts) ->
  text (snd (Rev1.refresh w p)) !! "presDelta" =
    Some (direction_of delta +:+ " " +:+ fmt (Num (Math_abs delta)) 2 +:+ " hPa").
Proof.
  intros Hfetch.
  destruct ref as [| |ref];
    try (rewrite (Rev1_refresh_text _ _ _ _ _ _ _ _ Hfetch); unfold Rev1_kpi_text;
         lookup_text).
  all: unfold Rev1.refresh; destruct cur as [cts ctemp chum cpres],
    hi as [hts [| |hf] hhum hpres], lo as [lts [| |lf] lhum lpres];
    kpi_run Hfetch; lookup_text.
Qed.

Lemma Rev2_delta_kpi w p cur hi lo delta ref ts :
  fetch_stage w = Ok (Obj (mkSummary (Obj cur) (Obj hi) (Obj lo) delta ref), ts) ->
  text (snd (Rev2.refresh w p)) !! "presDelta" =
    Some (direction_of delta +:+ " " +:+ fmt (Num (Math_abs delta)) 1 +:+ " hPa").
Proof.
  intros Hfetch. rewrite (Rev2_refresh_text _ _ _ _ _ _ _ _ Hfetch).
  unfold Rev2_kpi_text. lookup_text.
Qed.

Lemma Rev3_delta_kpi w p cur hi lo delta ref ts :
  fetch_stage w = Ok (Obj (mkSummary (Obj cur) (Obj hi) (Obj lo) delta ref), ts) ->
  text (snd (Rev3.refresh w p)) !! "presDelta" =
    Some (direction_of delta +:+ " " +:+ fmt (Num (Math_abs delta)) 1 +:+ " hPa / "
          +:+ fmt (Num (Math_abs (Num (js_mul delta (Num Rev3.PRESSURE_HPA_TO_INHG))))) 1
          +:+ " inHg").
Proof.
  intros Hfetch. rewrite (Rev3_refresh_text _ _ _ _ _ _ _ _ Hfetch).
  unfold Rev3_kpi_text. lookup_text.
Qed.

(** ** The example worlds *)

Lemma fetch_stage_world_of (s : jsobj Summary) (ts : jsobj TimeSeries) first :
  fetch_stage (world_of (ok_response s) (ok_response ts) first) = Ok (s, ts).
Proof. reflexivity. Qed.

(** ** Comparisons with zero *)

Lemma Prim2SF_zero : Prim2SF 0 = S754_zero false.
Proof. reflexivity. Qed.

Lemma ltb_zero_exclusive f :
  PrimFloat.ltb f 0 = true -> PrimFloat.ltb 0 f = false.
Proof.
  rewrite !FloatAxioms.ltb_spec, Prim2SF_zero. unfold SFltb, SFcompare.
  destruct (Prim2SF f) as [s|[]| |[] m e]; try discriminate; reflexivity.
Qed.

Lemma eqb_zero_not_ltb f :
  PrimFloat.eqb f 0 = true -> PrimFloat.ltb 0 f = false /\ PrimFloat.ltb f 0 = false.
Proof.
  rewrite FloatAxioms.eqb_spec, !FloatAxioms.ltb_spec, Prim2SF_zero. unfold SFeqb, SFltb, SFcompare.
  destruct (Prim2SF f) as [s|[]| |[] m e]; try discriminate; now split.
Qed.

Lemma direction_of_up f : PrimFloat.ltb 0 f = true -> direction_of (Num f) = "up"%string.
Proof. intros H. unfold direction_of, js_gt. cbn [ToNumber]. now rewrite H. Qed.

Lemma direction_of_down f : PrimFloat.ltb f 0 = true -> direction_of (Num f) = "down"%string.
Proof.
  intros H. unfold direction_of, js_gt, js_lt. cbn [ToNumber].
  now rewrite (ltb_zero_exclusive f H), H.
Qed.

Lemma direction_of_flat f : PrimFloat.eqb f 0 = true -> direction_of (Num f) = "flat"%string.
Proof.
  intros H. unfold direction_of, js_gt, js_lt. cbn [ToNumber].
  now destruct (eqb_zero_not_ltb f H) as [-> ->].
Qed.

Lemma abs_not_negative f : PrimFloat.ltb (abs f) 0 = false.
Proof.
  rewrite FloatAxioms.ltb_spec, abs_spec, Prim2SF_zero. unfold SFltb, SFcompare, SFabs.
  now destruct (Prim2SF f) as [s|s| |s m e].
Qed.

Lemma fmt_abs_unsigned x d : 0 <= d <= 100 -> has_minus (fmt (Num (Math_abs x)) d) = false.
Proof.
  intros Hd. unfold fmt. destruct (fmtNum_total (Num (Math_abs x)) d Hd) as [s Hs].
  rewrite Hs. unfold Math_abs in *.
  destruct (is_nan (abs (ToNumber x))) eqn:Hn.
  - rewrite fmtNum_nan in Hs by exact Hn. now injection Hs as <-.
  - rewrite fmtNum_number in Hs by exact Hn.
    apply (toFixed_unsigned _ _ _ Hs). rewrite abs_spec.
    now destruct (Prim2SF (ToNumber x)).
Qed.

(** ** The chart blocks in closed form *)

Lemma set_data_update h pts p :
  (set_data (Some h) pts ;;; chart_update (Some h)) p =
  (Ok tt, with_charts (alter (redraw_with pts) h) p).
Proof.
  cbv [bind set_data chart_update with_charts charts text tempChart humChart presChart
       temp24Chart pres24Chart console intervals].
  f_equal. f_equal. rewrite list_alter_alter_eq. reflexivity.
Qed.

Lemma Rev3_charts_24h_create a b p :
  temp24Chart p = None ->
  Rev3.charts_24h a b p =
    (Ok tt,
     mkPage (text p)
       ((charts p ++ [mkChart "chartTemp24" "Temp (°F)" "hour" a 0])
          ++ [mkChart "chartPres24" "Pressure (hPa)" "hour" b 0])
       (tempChart p) (humChart p) (presChart p)
       (Some (length (charts p))) (Some (length (charts p ++ [mkChart "chartTemp24" "Temp (°F)" "hour" a 0])))
       (console p) (intervals p)).
Proof. intros H. unfold Rev3.charts_24h. rewrite H. reflexivity. Qed.

Lemma Rev3_charts_24h_update a b p i j :
  temp24Chart p = Some i -> pres24Chart p = Some j ->
  Rev3.charts_24h a b p =
    (Ok tt,
     with_charts (fun cs => alter (redraw_with b) j (alter (redraw_with a) i cs)) p).
Proof.
  intros Hi Hj. unfold Rev3.charts_24h. rewrite Hi.
  cbv [unset bind set_data chart_update with_charts charts text tempChart humChart
       presChart temp24Chart pres24Chart console intervals].
  destruct p as [t cs tc hc pc t24 p24 co iv]. cbn in Hi, Hj. subst t24 p24.
  f_equal. f_equal.
  rewrite !list_alter_alter_eq. reflexivity.
Qed.

Lemma Rev3_charts_7d_create a b c p :
  tempChart p = None ->
  Rev3.charts_7d a b c p =
    (Ok tt,
     mkPage (text p)
       (((charts p ++ [mkChart "chartTemp" "Temp (°F)" "day" a 0])
           ++ [mkChart "chartHum" "Humidity (%)" "day" b 0])
          ++ [mkChart "chartPres" "Pressure (hPa)" "day" c 0])
       (Some (length (charts p)))
       (Some (length (charts p ++ [mkChart "chartTemp" "Temp (°F)" "day" a 0])))
       (Some (length ((charts p ++ [mkChart "chartTemp" "Temp (°F)" "day" a 0])
                        ++ [mkChart "chartHum" "Humidity (%)" "day" b 0])))
       (temp24Chart p) (pres24Chart p) (console p) (intervals p)).
Proof. intros H. unfold Rev3.charts_7d. rewrite H. reflexivity. Qed.

Lemma Rev3_charts_7d_update a b c p i j k :
  tempChart p = Some i -> humChart p = Some j -> presChart p = Some k ->
  Rev3.charts_7d a b c p =
    (Ok tt,
     with_charts (fun cs =>
       alter (redraw_with c) k (alter (redraw_with b) j (alter (redraw_with a) i cs))) p).
Proof.
  intros Hi Hj Hk. unfold Rev3.charts_7d. rewrite Hi.
  destruct p as [t cs tc hc pc t24 p24 co iv]. cbn in Hi, Hj, Hk. subst tc hc pc.
  cbv [unset update_each for_each bind ret set_data chart_update with_charts charts text
       tempChart humChart presChart temp24Chart pres24Chart console intervals].
  f_equal. f_equal.
  rewrite !list_alter_alter_eq. reflexivity.
Qed.

Lemma same_but_text_with_text f p : same_but_text p (with_text f p).
Proof. repeat split. Qed.

Lemma same_but_text_refl p : same_but_text p p.
Proof. repeat split. Qed.

(** ** How a cycle of the third revision can end *)

Lemma Rev3_charts_stage_cases h ts q :
  (exists e, Rev3_charts_stage h ts q = (Err e, q)) \/
  (exists a, points_for h ts a /\
     Rev3_charts_stage h ts q =
       (Rev3.charts_24h (temp24Points a) (pres24Points a) ;;;
        Rev3.charts_7d (tempPoints a) (humPoints a) (presPoints a)) q).
Proof.
  unfold Rev3_charts_stage, points_for. cbv [bind lift].
  destruct (points_of ts "temp_f" temp_f) as [tp|e]; [|left; eauto].
  destruct (points_of ts "humidity_pct" humidity_pct) as [hp|e]; [|left; eauto].
  destruct (points_of ts "pressure_hpa" pressure_hpa) as [pp|e]; [|left; eauto].
  destruct (Rev3.last_24h h ts (Date_now h - Rev3.day_ms)) as [ts24|e]; [|left; eauto].
  destruct (points_of ts24 "temp_f" temp_f) as [t24|e] eqn:H1; [|left; eauto].
  destruct (points_of ts24 "pressure_hpa" pressure_hpa) as [p24|e] eqn:H2; [|left; eauto].
  right. exists (mkPointArrays t24 p24 tp hp pp). cbn [tempPoints humPoints presPoints
    temp24Points pres24Points]. repeat split. exists ts24. repeat split; assumption.
Qed.

Lemma Rev3_refresh_cases w p :
  (exists e, fetch_stage w = Err e /\ Rev3.refresh w p = (Err e, p)) \/
  (exists e p', Rev3.refresh w p = (Err e, p') /\ same_but_text p p') \/
  (exists summary ts a p',
     fetch_stage w = Ok (summary, ts) /\ points_for (the_host w) ts a /\
     same_but_text p p' /\
     Rev3.refresh w p =
       (Rev3.charts_24h (temp24Points a) (pres24Points a) ;;;
        Rev3.charts_7d (tempPoints a) (humPoints a) (presPoints a)) p').
Proof.
  destruct (fetch_stage w) as [[summary ts]|e] eqn:Hfetch.
  2: { left. exists e. split; [reflexivity|].
       unfold Rev3.refresh. cbv [bind lift]. now rewrite Hfetch. }
  right.
  destruct summary as [| |[[| |cur] hi lo delta ref]].
  1-4: left; unfold Rev3.refresh; kpi_run Hfetch;
    eexists _, _; (split; [reflexivity|apply same_but_text_refl]).
  destruct hi as [| |hi].
  1-2: left; unfold Rev3.refresh; destruct cur as [cts ctemp chum cpres];
    kpi_run Hfetch; eexists _, _; (split; [reflexivity|repeat split]).
  destruct lo as [| |lo].
  1-2: left; unfold Rev3.refresh; destruct cur as [cts ctemp chum cpres];
    destruct hi as [hts [| |hf] hhum hpres];
    kpi_run Hfetch; eexists _, _; (split; [reflexivity|repeat split]).
  rewrite (Rev3_refresh_kpis _ _ _ _ _ _ _ _ Hfetch).
  destruct (Rev3_charts_stage_cases (the_host w) ts
              (with_text (Rev3_kpi_text (the_host w) cur hi lo delta) p))
    as [[e He]|(a & Ha & Hrun)].
  - left. eexists _, _. split; [exact He|apply same_but_text_with_text].
  - right. eexists _, ts, a, _.
    split; [reflexivity|]. split; [exact Ha|].
    split; [apply same_but_text_with_text|exact Hrun].
Qed.

(** ** The chart blocks on a page that holds no chart, or all five *)

Lemma Rev3_charts_first a p :
  no_charts p ->
  (Rev3.charts_24h (temp24Points a) (pres24Points a) ;;;
   Rev3.charts_7d (tempPoints a) (humPoints a) (presPoints a)) p =
  (Ok tt, mkPage (text p) (built_charts a) (Some 2%nat) (Some 3%nat) (Some 4%nat)
            (Some 0%nat) (Some 1%nat) (console p) (intervals p)).
Proof.
  intros (Hc & Ht & Hh & Hp & Ht24 & Hp24).
  unfold bind. rewrite (Rev3_charts_24h_create _ _ _ Ht24).
  rewrite Rev3_charts_7d_create by exact Ht.
  cbn [text charts tempChart humChart presChart temp24Chart pres24Chart console intervals].
  rewrite Hc. reflexivity.
Qed.

Lemma Rev3_charts_later a p :
  five_charts p ->
  (Rev3.charts_24h (temp24Points a) (pres24Points a) ;;;
   Rev3.charts_7d (tempPoints a) (humPoints a) (presPoints a)) p =
  (Ok tt, with_charts (redrawn_charts a) p).
Proof.
  intros (Ht24 & Hp24 & Ht & Hh & Hp & _).
  unfold bind. rewrite (Rev3_charts_24h_update _ _ _ _ _ Ht24 Hp24).
  rewrite (Rev3_charts_7d_update _ _ _ _ 2%nat 3%nat 4%nat) by assumption.
  reflexivity.
Qed.

Lemma mount_redraw_with pts c : mount (redraw_with pts c) = mount c.
Proof. reflexivity. Qed.

Lemma map_mount_alter pts i cs :
  map mount (alter (redraw_with pts) i cs) = map mount cs.
Proof.
  revert i. induction cs as [|c cs IH]; intros [|i]; cbn; [reflexivity..| |];
    now rewrite ?IH.
Qed.

Lemma map_mount_redrawn a cs : map mount (redrawn_charts a cs) = map mount cs.
Proof. unfold redrawn_charts. now rewrite !map_mount_alter. Qed.

Lemma five_charts_built a t co iv :
  five_charts (mkPage t (built_charts a) (Some 2%nat) (Some 3%nat) (Some 4%nat)
                 (Some 0%nat) (Some 1%nat) co iv).
Proof. repeat split. Qed.

Lemma five_charts_redrawn a p : five_charts p -> five_charts (with_charts (redrawn_charts a) p).
Proof.
  intros (Ht24 & Hp24 & Ht & Hh & Hp & Hm). repeat split; try assumption.
  cbn [with_charts charts]. now rewrite map_mount_redrawn.
Qed.

Lemma same_but_text_no_charts p p' : same_but_text p p' -> no_charts p -> no_charts p'.
Proof.
  intros ((Hc & Ht & Hh & Hp & Ht24 & Hp24) & _) (? & ? & ? & ? & ? & ?).
  repeat split; congruence.
Qed.

Lemma same_but_text_five_charts p p' : same_but_text p p' -> five_charts p -> five_charts p'.
Proof.
  intros ((Hc & Ht & Hh & Hp & Ht24 & Hp24) & _) (? & ? & ? & ? & ? & ?).
  repeat split; congruence.
Qed.

(** A cycle that fails leaves every chart and chart variable as it was;
    one that succeeds builds the five charts on a page without charts and
    redraws them on a page that has them. *)
Lemma Rev3_refresh_charts w p :
  charts_inv p ->
  match Rev3.refresh w p with
  | (Err _, p') => same_but_text p p'
  | (Ok _, p') =>
      exists summary ts a,
        fetch_stage w = Ok (summary, ts) /\ points_for (the_host w) ts a /\
        console p' = console p /\ intervals p' = intervals p /\
        (no_charts p ->
           charts p' = built_charts a /\ five_charts p') /\
        (five_charts p ->
           charts p' = redrawn_charts a (charts p) /\ five_charts p')
  end.
Proof.
  intros Hinv.
  destruct (Rev3_refresh_cases w p)
    as [(e & _ & ->)|[(e & p' & -> & Hs)|(summary & ts & a & p' & Hf & Ha & Hs & ->)]].
  - apply same_but_text_refl.
  - exact Hs.
  - destruct Hs as (Hsc & Hco & Hiv).
    destruct Hinv as [Hno|Hfive].
    + assert (Hno' : no_charts p')
        by (eapply same_but_text_no_charts; [|exact Hno]; split; [exact Hsc|split; assumption]).
      rewrite Rev3_charts_first by exact Hno'.
      exists summary, ts, a.
      split; [exact Hf|]. split; [exact Ha|].
      split; [exact Hco|]. split; [exact Hiv|].
      split; intros Hp.
      * split; [reflexivity|apply five_charts_built].
      * destruct Hp as (Ht24 & _). destruct Hno as (_ & _ & _ & _ & Hn24 & _). congruence.
    + assert (Hfive' : five_charts p')
        by (eapply same_but_text_five_charts; [|exact Hfive]; split; [exact Hsc|split; assumption]).
      rewrite Rev3_charts_later by exact Hfive'.
      exists summary, ts, a.
      split; [exact Hf|]. split; [exact Ha|].
      split; [exact Hco|]. split; [exact Hiv|].
      split; intros Hp.
      * destruct Hp as (_ & _ & _ & _ & Hn24 & _). destruct Hfive as (Ht24 & _). congruence.
      * split; [|now apply five_charts_redrawn].
        cbn [with_charts charts]. destruct Hsc as (Hc & _). now rewrite Hc.
Qed.

(** ** The driver *)

Section DriverFacts.
Variable refresh : world -> M unit.

Lemma on_interval_ok w p : fst (on_interval refresh w p) = Ok tt.
Proof.
  unfold on_interval, try_catch. destruct (refresh w p) as [[[]|e] p']; reflexivity.
Qed.

Lemma for_each_on_interval_ok w (l : list Z) p :
  fst (for_each l (fun _ => on_interval refresh w) p) = Ok tt.
Proof.
  revert p. induction l as [|d l IH]; intros p; [reflexivity|].
  cbn [for_each]. unfold bind.
  pose proof (on_interval_ok w p) as H.
  destruct (on_interval refresh w p) as [[[]|e] p']; [apply IH|discriminate].
Qed.

Lemma main_ok w p : fst (main refresh w p) = Ok tt.
Proof.
  unfold main, try_catch, bind.
  destruct (refresh w p) as [[[]|e] p']; reflexivity.
Qed.

Lemma step_ok ev p : fst (step refresh ev p) = Ok tt.
Proof. destruct ev as [w|w]; [apply main_ok|apply for_each_on_interval_ok]. Qed.

Lemma run_ok evs p : fst (run refresh evs p) = Ok tt.
Proof.
  revert p. induction evs as [|ev evs IH]; intros p; [reflexivity|].
  cbn [run]. unfold bind. pose proof (step_ok ev p) as H.
  destruct (step refresh ev p) as [[[]|e] p']; [apply IH|discriminate].
Qed.

Lemma main_failed w p e p' :
  refresh w p = (Err e, p') ->
  main refresh w p =
    (Ok tt, with_text (fun t => <["lastUpdated" := "Error loading data: " +:+ err_message e]> t)
              (with_console (fun l => e :: l) p')).
Proof. intros H. unfold main, try_catch, bind. now rewrite H. Qed.

Lemma main_loaded w p p' :
  refresh w p = (Ok tt, p') ->
  main refresh w p = (Ok tt, with_intervals (fun l => l ++ [60000]) p').
Proof. intros H. unfold main, try_catch, bind. now rewrite H. Qed.

Lemma tick_without_timer w p : intervals p = [] -> step refresh (Tick w) p = (Ok tt, p).
Proof. intros H. cbn [step]. now rewrite H. Qed.

Lemma tick_failed w p d e p' :
  intervals p = [d] -> refresh w p = (Err e, p') ->
  step refresh (Tick w) p = (Ok tt, with_console (fun l => e :: l) p').
Proof.
  intros Hd H. cbn [step]. rewrite Hd. cbn [for_each]. unfold bind, on_interval, try_catch.
  now rewrite H.
Qed.

Lemma tick_rendered w p d p' :
  intervals p = [d] -> refresh w p = (Ok tt, p') ->
  step refresh (Tick w) p = (Ok tt, p').
Proof.
  intros Hd H. cbn [step]. rewrite Hd. cbn [for_each]. unfold bind, on_interval, try_catch.
  now rewrite H.
Qed.
End DriverFacts.

(** ** Invariants of the third revision's page *)

Lemma Rev3_refresh_keeps_timers w p :
  charts_inv p ->
  intervals (snd (Rev3.refresh w p)) = intervals p /\
  console (snd (Rev3.refresh w p)) = console p.
Proof.
  intros Hinv. pose proof (Rev3_refresh_charts w p Hinv) as H.
  destruct (Rev3.refresh w p) as [[[]|e] p']; cbn [snd].
  - destruct H as (summary & ts & a & _ & _ & Hco & Hiv & _). now split.
  - destruct H as (_ & Hco & Hiv). now split.
Qed.

Lemma Rev3_refresh_inv w p : charts_inv p -> charts_inv (snd (Rev3.refresh w p)).
Proof.
  intros Hinv. pose proof (Rev3_refresh_charts w p Hinv) as H.
  destruct (Rev3.refresh w p) as [[[]|e] p']; cbn [snd].
  - destruct H as (summary & ts & a & _ & _ & _ & _ & Hfirst & Hlater).
    right. destruct Hinv as [Hno|Hfive]; [apply Hfirst|apply Hlater]; assumption.
  - destruct Hinv as [Hno|Hfive];
      [left; eapply same_but_text_no_charts|right; eapply same_but_text_five_charts]; eauto.
Qed.

Lemma charts_inv_same p p' : same_charts p p' -> charts_inv p -> charts_inv p'.
Proof.
  intros (Hc & Ht & Hh & Hp & Ht24 & Hp24) [(? & ? & ? & ? & ? & ?)|(? & ? & ? & ? & ? & ?)];
    [left|right]; repeat split; congruence.
Qed.

Lemma Rev3_on_interval_inv w p :
  charts_inv p ->
  charts_inv (snd (Rev3.on_interval w p)) /\
  intervals (snd (Rev3.on_interval w p)) = intervals p.
Proof.
  intros Hinv. pose proof (Rev3_refresh_inv w p Hinv) as H.
  pose proof (Rev3_refresh_keeps_timers w p Hinv) as [Hiv _].
  unfold Rev3.on_interval, on_interval, try_catch.
  destruct (Rev3.refresh w p) as [[[]|e] p']; cbn [snd] in *; [now split|].
  split; [|exact Hiv]. eapply charts_inv_same; [|exact H]. repeat split.
Qed.

Lemma Rev3_for_each_inv w (l : list Z) p :
  charts_inv p ->
  charts_inv (snd (for_each l (fun _ => Rev3.on_interval w) p)) /\
  intervals (snd (for_each l (fun _ => Rev3.on_interval w) p)) = intervals p.
Proof.
  revert p. induction l as [|d l IH]; intros p Hinv; [now split|].
  cbn [for_each]. unfold bind.
  destruct (Rev3_on_interval_inv w p Hinv) as [H1 H2].
  destruct (Rev3.on_interval w p) as [[[]|e] p']; cbn [snd] in *; [|now split].
  destruct (IH p' H1) as [H3 H4]. split; [exact H3|congruence].
Qed.



Lemma charts_inv_initial t : charts_inv (initial_page t).
Proof. left. repeat split. Qed.

(** ** Well-formed time series *)

Lemma map_result_objects {B} (f : Reading -> B) (g : jsobj Reading -> result B)
    (rs : list Reading) :
  (forall r, g (Obj r) = Ok (f r)) ->
  map_result g (map Obj rs) = Ok (map f rs).
Proof.
  intros Hg. induction rs as [|r rs IH]; [reflexivity|].
  cbn [map map_result]. now rewrite Hg, IH.
Qed.

Lemma points_of_objects field get rs :
  points_of (Obj (map Obj rs)) field get = Ok (points get rs).
Proof.
  unfold points_of, array_map. cbn [prop]. unfold id.
  now apply map_result_objects.
Qed.

Lemma filter_combine_objects (keep : Reading -> bool) (rs : list Reading) :
  map fst (List.filter snd (combine (map Obj rs) (map keep rs))) =
  map Obj (List.filter keep rs).
Proof.
  induction rs as [|r rs IH]; [reflexivity|].
  cbn [map combine List.filter snd]. destruct (keep r); cbn [map fst]; now rewrite IH.
Qed.

Lemma last_24h_objects h rs :
  Rev3.last_24h h (Obj (map Obj rs)) (PrimFloat.sub (Date_now h) Rev3.day_ms) =
  Ok (Obj (map Obj (recent h rs))).
Proof.
  unfold Rev3.last_24h, array_filter. cbn [prop]. unfold id.
  rewrite (map_result_objects
             (fun r => PrimFloat.leb (PrimFloat.sub (Date_now h) Rev3.day_ms)
                         (Date_getTime h (ts_utc r)))) by reflexivity.
  unfold recent. now rewrite filter_combine_objects.
Qed.

Lemma points_for_objects h rs :
  points_for h (Obj (map Obj rs))
    (mkPointArrays (points temp_f (recent h rs)) (points pressure_hpa (recent h rs))
       (points temp_f rs) (points humidity_pct rs) (points pressure_hpa rs)).
Proof.
  unfold points_for. cbn [tempPoints humPoints presPoints temp24Points pres24Points].
  rewrite !points_of_objects. repeat split.
  exists (Obj (map Obj (recent h rs))). rewrite last_24h_objects, !points_of_objects.
  repeat split.
Qed.

Lemma Rev3_charts_stage_objects h rs q :
  Rev3_charts_stage h (Obj (map Obj rs)) q =
    (Rev3.charts_24h (points temp_f (recent h rs)) (points pressure_hpa (recent h rs)) ;;;
     Rev3.charts_7d (points temp_f rs) (points humidity_pct rs) (points pressure_hpa rs)) q.
Proof.
  unfold Rev3_charts_stage. cbv [bind lift].
  rewrite !points_of_objects, last_24h_objects, !points_of_objects. reflexivity.
Qed.

Lemma Rev3_refresh_succeeds w p cur hi lo delta ref rs :
  fetch_stage w =
    Ok (Obj (mkSummary (Obj cur) (Obj hi) (Obj lo) delta ref), Obj (map Obj rs)) ->
  charts_inv p ->
  fst (Rev3.refresh w p) = Ok tt.
Proof.
  intros Hfetch Hinv. rewrite (Rev3_refresh_kpis _ _ _ _ _ _ _ _ Hfetch).
  rewrite Rev3_charts_stage_objects.
  set (a := mkPointArrays (points temp_f (recent (the_host w) rs))
              (points pressure_hpa (recent (the_host w) rs))
              (points temp_f rs) (points humidity_pct rs) (points pressure_hpa rs)).
  change (fst ((Rev3.charts_24h (temp24Points a) (pres24Points a) ;;;
                Rev3.charts_7d (tempPoints a) (humPoints a) (presPoints a))
                 (with_text (Rev3_kpi_text (the_host w) cur hi lo delta) p)) = Ok tt).
  destruct Hinv as [Hno|Hfive].
  - rewrite Rev3_charts_first; [reflexivity|].
    eapply same_but_text_no_charts; [apply same_but_text_with_text|exact Hno].
  - rewrite Rev3_charts_later; [reflexivity|].
    eapply same_but_text_five_charts; [apply same_but_text_with_text|exact Hfive].
Qed.

Lemma Rev2_charts_7d_ok a b c p : vars7_ok p -> fst (Rev2.charts_7d a b c p) = Ok tt.
Proof.
  intros [Hn|(i & j & k & Hi & Hj & Hk)].
  - change (Rev2.charts_7d a b c) with (Rev3.charts_7d a b c).
    now rewrite Rev3_charts_7d_create.
  - change (Rev2.charts_7d a b c) with (Rev3.charts_7d a b c).
    now rewrite (Rev3_charts_7d_update _ _ _ _ i j k).
Qed.

Lemma Rev2_refresh_succeeds w p cur hi lo delta ref rs :
  fetch_stage w =
    Ok (Obj (mkSummary (Obj cur) (Obj hi) (Obj lo) delta ref), Obj (map Obj rs)) ->
  vars7_ok p ->
  fst (Rev2.refresh w p) = Ok tt.
Proof.
  intros Hfetch Hinv. rewrite (Rev2_refresh_kpis _ _ _ _ _ _ _ _ Hfetch).
  unfold Rev2_charts_stage. cbv [bind lift]. rewrite !points_of_objects.
  apply Rev2_charts_7d_ok. exact Hinv.
Qed.

(** ** The text a cycle leaves *)

Ltac text_effect_case Hfetch :=
  kpi_run Hfetch; cbv [snd with_text text]; reflexivity.

Lemma Rev3_text_effect_correct w p :
  text (snd (Rev3.refresh w p)) = Rev3_text_effect w (text p).
Proof.
  unfold Rev3_text_effect.
  destruct (fetch_stage w) as [[summary ts]|e] eqn:Hfetch.
  2: { unfold Rev3.refresh. cbv [bind lift]. now rewrite Hfetch. }
  destruct summary as [| |[[| |cur] hi lo delta ref]]; cbn [current temp_24h_high
    temp_24h_low pressure_change_hpa].
  1-4: unfold Rev3.refresh; text_effect_case Hfetch.
  destruct hi as [| |hi].
  1-2: unfold Rev3.refresh; destruct cur as [cts ctemp chum cpres];
    text_effect_case Hfetch.
  destruct lo as [| |lo].
  1-2: unfold Rev3.refresh, high_low_text; destruct cur as [cts ctemp chum cpres];
    destruct hi as [hts [| |hf] hhum hpres]; text_effect_case Hfetch.
  apply (Rev3_refresh_text _ _ _ _ _ _ _ _ Hfetch).
Qed.

Lemma Rev2_text_effect_correct w p :
  text (snd (Rev2.refresh w p)) = Rev2_text_effect w (text p).
Proof.
  unfold Rev2_text_effect.
  destruct (fetch_stage w) as [[summary ts]|e] eqn:Hfetch.
  2: { unfold Rev2.refresh. cbv [bind lift]. now rewrite Hfetch. }
  destruct summary as [| |[[| |cur] hi lo delta ref]]; cbn [current temp_24h_high
    temp_24h_low pressure_change_hpa].
  1-4: unfold Rev2.refresh; text_effect_case Hfetch.
  destruct hi as [| |hi].
  1-2: unfold Rev2.refresh; destruct cur as [cts ctemp chum cpres];
    text_effect_case Hfetch.
  destruct lo as [| |lo].
  1-2: unfold Rev2.refresh, high_low_text; destruct cur as [cts ctemp chum cpres];
    destruct hi as [hts [| |hf] hhum hpres]; text_effect_case Hfetch.
  apply (Rev2_refresh_text _ _ _ _ _ _ _ _ Hfetch).
Qed.

(** ** Cycles on well-formed payloads, in closed form *)

Lemma Rev3_refresh_objects w p cur hi lo delta ref rs :
  fetch_stage w =
    Ok (Obj (mkSummary (Obj cur) (Obj hi) (Obj lo) delta ref), Obj (map Obj rs)) ->
  Rev3.refresh w p =
    (Rev3.charts_24h (temp24Points (arrays_of (the_host w) rs))
                     (pres24Points (arrays_of (the_host w) rs)) ;;;
     Rev3.charts_7d (tempPoints (arrays_of (the_host w) rs))
                    (humPoints (arrays_of (the_host w) rs))
                    (presPoints (arrays_of (the_host w) rs)))
      (with_text (Rev3_kpi_text (the_host w) cur hi lo delta) p).
Proof.
  intros Hfetch. rewrite (Rev3_refresh_kpis _ _ _ _ _ _ _ _ Hfetch).
  apply Rev3_charts_stage_objects.
Qed.

Lemma Rev3_refresh_objects_first w p cur hi lo delta ref rs :
  fetch_stage w =
    Ok (Obj (mkSummary (Obj cur) (Obj hi) (Obj lo) delta ref), Obj (map Obj rs)) ->
  no_charts p ->
  Rev3.refresh w p =
    (Ok tt, mkPage (Rev3_kpi_text (the_host w) cur hi lo delta (text p))
              (built_charts (arrays_of (the_host w) rs))
              (Some 2%nat) (Some 3%nat) (Some 4%nat) (Some 0%nat) (Some 1%nat)
              (console p) (intervals p)).
Proof.
  intros Hfetch Hno. rewrite (Rev3_refresh_objects _ _ _ _ _ _ _ _ Hfetch).
  rewrite Rev3_charts_first; [reflexivity|].
  eapply same_but_text_no_charts; [apply same_but_text_with_text|exact Hno].
Qed.

Lemma Rev3_refresh_objects_later w p cur hi lo delta ref rs :
  fetch_stage w =
    Ok (Obj (mkSummary (Obj cur) (Obj hi) (Obj lo) delta ref), Obj (map Obj rs)) ->
  five_charts p ->
  Rev3.refresh w p =
    (Ok tt, with_charts (redrawn_charts (arrays_of (the_host w) rs))
              (with_text (Rev3_kpi_text (the_host w) cur hi lo delta) p)).
Proof.
  intros Hfetch Hfive. rewrite (Rev3_refresh_objects _ _ _ _ _ _ _ _ Hfetch).
  rewrite Rev3_charts_later; [reflexivity|].
  eapply same_but_text_five_charts; [apply same_but_text_with_text|exact Hfive].
Qed.

Lemma map_result_null_element {B} (g : jsobj Reading -> result B) (f : Reading -> B)
    (e : error) (rs : list Reading) (l : list (jsobj Reading)) :
  (forall r, g (Obj r) = Ok (f r)) -> g ObjNull = Err e ->
  map_result g (map Obj rs ++ ObjNull :: l) = Err e.
Proof.
  intros Hg He. induction rs as [|r rs IH]; cbn [map app map_result].
  - now rewrite He.
  - now rewrite Hg, IH.
Qed.

(** ** Timer ticks *)

Lemma Rev3_ticks_without_timer ticks q :
  intervals q = [] -> Rev3.run (map Tick ticks) q = (Ok tt, q).
Proof.
  intros Hq. induction ticks as [|w ticks IH]; [reflexivity|].
  unfold Rev3.run in *. cbn [map run]. unfold bind.
  now rewrite (tick_without_timer Rev3.refresh w q Hq).
Qed.

Lemma Rev3_ticks_keep_timers ticks : forall q,
  charts_inv q -> intervals (snd (Rev3.run (map Tick ticks) q)) = intervals q.
Proof.
  induction ticks as [|w ticks IH]; intros q Hinv; [reflexivity|].
  unfold Rev3.run in *. cbn [map run]. unfold bind. cbn [step].
  destruct (Rev3_for_each_inv w (intervals q) q Hinv) as [H1 H2].
  unfold Rev3.on_interval in *.
  destruct (for_each (intervals q) (fun _ => on_interval Rev3.refresh w) q)
    as [[[]|e] q']; cbn [snd] in *; [|exact H2].
  rewrite (IH q' H1). exact H2.
Qed.

(** ** Null and missing numeric fields (C2) *)

(** C2 at its failing input.  With a current pressure of [null], the
    later revisions write the placeholder for the hectopascal figure but
    ["0.0"] for the inches of mercury: the multiplication turns [null]
    into zero before [fmtNum] sees it. *)
Theorem null_pressure_renders_zero_inHg w p s ts cur :
  fetch_stage w = Ok (Obj s, ts) -> current s = Obj cur ->
  pressure_hpa cur = NumNull ->
  text (snd (Rev3.refresh w p)) !! "curPres" = Some "— hPa / 0.0 inHg"%string /\
  text (snd (Rev2.refresh w p)) !! "curPres" = Some "— hPa / 0.0 inHg"%string.
Proof.
  intros Hfetch Hcur Hnull.
  destruct (Rev3_current_kpis w p s ts cur Hfetch Hcur) as (_ & _ & ->).
  destruct (Rev2_current_kpis w p s ts cur Hfetch Hcur) as (_ & _ & ->).
  rewrite Hnull. now vm_compute.
Qed.

Lemma null_pressure_renders_zero_inHg_witness :
  text (snd (Rev3.refresh null_pressure_world (initial_page ∅))) !! "curPres"
    = Some "— hPa / 0.0 inHg"%string /\
  text (snd (Rev2.refresh null_pressure_world (initial_page ∅))) !! "curPres"
    = Some "— hPa / 0.0 inHg"%string.
Proof.
  eapply (null_pressure_renders_zero_inHg null_pressure_world).
  - apply fetch_stage_world_of.
  - reflexivity.
  - reflexivity.
Defined.

(** ** Pressure conversion (C6) *)

(** C6.  The inches-of-mercury figure of the current pressure is the
    one-decimal text of the binary64 product of the pressure and 0.02953
    (the product IEEE 754 specifies, rounded once); 1013.25 hPa converts
    to a value between 29.91 and 29.93, 29.92 to two decimals. *)
Theorem pressure_inHg_is_scaled_hPa w p s ts cur (hPa : float) :
  fetch_stage w = Ok (Obj s, ts) -> current s = Obj cur ->
  pressure_hpa cur = Num hPa ->
  (text (snd (Rev3.refresh w p)) !! "curPres" =
     Some (fmt (Num hPa) 1 +:+ " hPa / "
           +:+ fmt (Num (hPa * Rev3.PRESSURE_HPA_TO_INHG)%float) 1 +:+ " inHg") /\
   text (snd (Rev2.refresh w p)) !! "curPres" =
     Some (fmt (Num hPa) 1 +:+ " hPa / "
           +:+ fmt (Num (hPa * 0.02953)%float) 1 +:+ " inHg")) /\
  Rev3.PRESSURE_HPA_TO_INHG = 0.02953%float /\
  Prim2SF (hPa * Rev3.PRESSURE_HPA_TO_INHG)%float =
    SF64mul (Prim2SF hPa) (Prim2SF 0.02953%float) /\
  (29.91 <=? 1013.25 * Rev3.PRESSURE_HPA_TO_INHG)%float = true /\
  (1013.25 * Rev3.PRESSURE_HPA_TO_INHG <=? 29.93)%float = true /\
  fmtNum (Num (1013.25 * Rev3.PRESSURE_HPA_TO_INHG)%float) (Some 2) = Ok "29.92"%string.
Proof.
  intros Hfetch Hcur Hp.
  destruct (Rev3_current_kpis w p s ts cur Hfetch Hcur) as (_ & _ & ->).
  destruct (Rev2_current_kpis w p s ts cur Hfetch Hcur) as (_ & _ & ->).
  rewrite Hp. repeat split.
  - apply mul_spec.
Qed.

Lemma pressure_inHg_is_scaled_hPa_witness :
  text (snd (Rev3.refresh (scenario_world (Num 0)) (initial_page ∅))) !! "curPres"
    = Some "1015.2 hPa / 30.0 inHg"%string.
Proof.
  exact (proj1 (proj1 (pressure_inHg_is_scaled_hPa (scenario_world (Num 0))
    (initial_page ∅) (scenario_summary (Num 0)) _ scenario_reading 1015.2%float
    (fetch_stage_world_of _ _ _) eq_refl eq_refl))).
Defined.

(** ** The pressure delta (C7, C9, C10) *)

(** C7.  When the summary and its current, high and low readings are
    objects and the pressure change is a number [delta], the delta KPI
    reads the direction word, a space and the magnitude: the word is "up"
    for [delta > 0], "down" for [delta < 0] and "flat" for [delta == 0];
    the magnitude is the formatted absolute value of [delta], which is
    never below zero and never carries a minus sign. *)
Theorem delta_direction_and_magnitude w p cur hi lo (delta : float) ref ts :
  fetch_stage w = Ok (Obj (mkSummary (Obj cur) (Obj hi) (Obj lo) (Num delta) ref), ts) ->
  let word := direction_of (Num delta) in
  let mag := fmt (Num (abs delta)) 1 in
  let mag' := fmt (Num (abs (delta * Rev3.PRESSURE_HPA_TO_INHG))) 1 in
  text (snd (Rev2.refresh w p)) !! "presDelta" = Some (word +:+ " " +:+ mag +:+ " hPa") /\
  text (snd (Rev3.refresh w p)) !! "presDelta" =
    Some (word +:+ " " +:+ mag +:+ " hPa / " +:+ mag' +:+ " inHg") /\
  ((0 <? delta)%float = true -> word = "up"%string) /\
  ((delta <? 0)%float = true -> word = "down"%string) /\
  ((delta =? 0)%float = true -> word = "flat"%string) /\
  (abs delta <? 0)%float = false /\
  has_minus mag = false /\ has_minus mag' = false.
Proof.
  intros Hfetch word mag mag'.
  rewrite (Rev2_delta_kpi _ _ _ _ _ _ _ _ Hfetch), (Rev3_delta_kpi _ _ _ _ _ _ _ _ Hfetch).
  repeat split.
  - apply direction_of_up.
  - apply direction_of_down.
  - apply direction_of_flat.
  - apply abs_not_negative.
  - apply (fmt_abs_unsigned (Num delta)). lia.
  - apply (fmt_abs_unsigned (Num (delta * Rev3.PRESSURE_HPA_TO_INHG))). lia.
Qed.

Lemma delta_direction_and_magnitude_witness :
  text (snd (Rev2.refresh (scenario_world (Num 1.5)) (initial_page ∅))) !! "presDelta"
    = Some "up 1.5 hPa"%string.
Proof.
  exact (proj1 (delta_direction_and_magnitude (scenario_world (Num 1.5)) (initial_page ∅)
    scenario_reading scenario_reading scenario_reading 1.5 (Obj scenario_reading) _
    (fetch_stage_world_of _ _ _))).
Defined.

(** C9, as amended.  With a pressure change of -2.5 (and the summary's
    current, high and low readings present), the second revision writes
    exactly "down 2.5 hPa"; the third appends the change in inches of
    mercury, "down 2.5 hPa / 0.1 inHg"; the first formats with two
    decimals, "down 2.50 hPa". *)
Theorem delta_scenario_texts w p cur hi lo ref ts :
  fetch_stage w = Ok (Obj (mkSummary (Obj cur) (Obj hi) (Obj lo) (Num (-2.5)) ref), ts) ->
  text (snd (Rev2.refresh w p)) !! "presDelta" = Some "down 2.5 hPa"%string /\
  text (snd (Rev3.refresh w p)) !! "presDelta" = Some "down 2.5 hPa / 0.1 inHg"%string /\
  text (snd (Rev1.refresh w p)) !! "presDelta" = Some "down 2.50 hPa"%string.
Proof.
  intros Hfetch.
  rewrite (Rev2_delta_kpi _ _ _ _ _ _ _ _ Hfetch), (Rev3_delta_kpi _ _ _ _ _ _ _ _ Hfetch),
    (Rev1_delta_kpi _ _ _ _ _ _ _ _ Hfetch).
  now vm_compute.
Qed.

Lemma delta_scenario_texts_witness :
  text (snd (Rev2.refresh (scenario_world (Num (-2.5))) (initial_page ∅))) !! "presDelta"
    = Some "down 2.5 hPa"%string.
Proof.
  exact (proj1 (delta_scenario_texts (scenario_world (Num (-2.5))) (initial_page ∅)
    scenario_reading scenario_reading scenario_reading (Obj scenario_reading) _
    (fetch_stage_world_of _ _ _))).
Defined.

(** C9, as stated, fails on the third revision: the delta KPI is not
    exactly "down 2.5 hPa". *)
Lemma delta_scenario_third_revision :
  text (snd (Rev3.refresh (scenario_world (Num (-2.5))) (initial_page ∅))) !! "presDelta"
    = Some "down 2.5 hPa / 0.1 inHg"%string /\
  "down 2.5 hPa / 0.1 inHg"%string <> "down 2.5 hPa"%string.
Proof. split; [now vm_compute|discriminate]. Qed.

(** C10.  With a pressure change of NaN the direction word is "flat" and
    the magnitude is the placeholder: the delta KPI reads "flat — hPa"
    in the second revision and "flat — hPa / — inHg" in the third; and
    on a well-formed time series the cycle completes without throwing. *)
Theorem nan_delta_renders_flat w p cur hi lo (delta : float) ref rs :
  fetch_stage w =
    Ok (Obj (mkSummary (Obj cur) (Obj hi) (Obj lo) (Num delta) ref), Obj (map Obj rs)) ->
  is_nan delta = true ->
  direction_of (Num delta) = "flat"%string /\
  fmtNum (Num (Math_abs (Num delta))) (Some 1) = Ok placeholder /\
  text (snd (Rev2.refresh w p)) !! "presDelta" = Some "flat — hPa"%string /\
  text (snd (Rev3.refresh w p)) !! "presDelta" = Some "flat — hPa / — inHg"%string /\
  (vars7_ok p -> fst (Rev2.refresh w p) = Ok tt) /\
  (charts_inv p -> fst (Rev3.refresh w p) = Ok tt).
Proof.
  intros Hfetch Hnan. apply is_nan_unique in Hnan. subst delta.
  rewrite (Rev2_delta_kpi _ _ _ _ _ _ _ _ Hfetch), (Rev3_delta_kpi _ _ _ _ _ _ _ _ Hfetch).
  repeat split.
  - now apply (Rev2_refresh_succeeds _ _ _ _ _ _ _ _ Hfetch).
  - now apply (Rev3_refresh_succeeds _ _ _ _ _ _ _ _ Hfetch).
Qed.

Lemma nan_delta_renders_flat_witness :
  text (snd (Rev3.refresh (scenario_world (Num nan)) (initial_page ∅))) !! "presDelta"
    = Some "flat — hPa / — inHg"%string /\
  fst (Rev3.refresh (scenario_world (Num nan)) (initial_page ∅)) = Ok tt.
Proof.
  pose proof (nan_delta_renders_flat (scenario_world (Num nan)) (initial_page ∅)
    scenario_reading scenario_reading scenario_reading nan (Obj scenario_reading)
    [scenario_reading] (fetch_stage_world_of _ _ _) eq_refl) as H.
  split; [exact (proj1 (proj2 (proj2 (proj2 H))))|].
  apply (proj2 (proj2 (proj2 (proj2 (proj2 H))))). apply charts_inv_initial.
Defined.

(** ** The current readings (C8) *)

(** C8, as amended.  For a current reading of 72.34 °F and 45.6 %, the
    second and third revisions write "72.3 °F" and "45.6 %"; the first
    revision formats with two decimals and writes "72.34 °F" and
    "45.60 %". *)
Theorem current_scenario_texts w p s ts :
  fetch_stage w = Ok (Obj s, ts) -> current s = Obj scenario_reading ->
  (text (snd (Rev2.refresh w p)) !! "curTemp" = Some "72.3 °F"%string /\
   text (snd (Rev2.refresh w p)) !! "curHum" = Some "45.6 %"%string) /\
  (text (snd (Rev3.refresh w p)) !! "curTemp" = Some "72.3 °F"%string /\
   text (snd (Rev3.refresh w p)) !! "curHum" = Some "45.6 %"%string) /\
  (text (snd (Rev1.refresh w p)) !! "curTemp" = Some "72.34 °F"%string /\
   text (snd (Rev1.refresh w p)) !! "curHum" = Some "45.60 %"%string).
Proof.
  intros Hfetch Hcur.
  destruct (Rev1_current_kpis w p s ts _ Hfetch Hcur) as (-> & -> & _).
  destruct (Rev2_current_kpis w p s ts _ Hfetch Hcur) as (-> & -> & _).
  destruct (Rev3_current_kpis w p s ts _ Hfetch Hcur) as (-> & -> & _).
  now vm_compute.
Qed.

Lemma current_scenario_texts_witness :
  text (snd (Rev3.refresh (scenario_world (Num (-2.5))) (initial_page ∅))) !! "curTemp"
    = Some "72.3 °F"%string /\
  text (snd (Rev3.refresh (scenario_world (Num (-2.5))) (initial_page ∅))) !! "curHum"
    = Some "45.6 %"%string.
Proof.
  exact (proj1 (proj2 (current_scenario_texts (scenario_world (Num (-2.5))) (initial_page ∅)
    (scenario_summary (Num (-2.5))) _ (fetch_stage_world_of _ _ _) eq_refl))).
Defined.

(** C8, as stated, fails on the first revision: it writes two decimals. *)
Lemma current_scenario_first_revision :
  text (snd (Rev1.refresh (scenario_world (Num (-2.5))) (initial_page ∅))) !! "curTemp"
    = Some "72.34 °F"%string /\
  text (snd (Rev1.refresh (scenario_world (Num (-2.5))) (initial_page ∅))) !! "curHum"
    = Some "45.60 %"%string /\
  "72.34 °F"%string <> "72.3 °F"%string /\ "45.60 %"%string <> "45.6 %"%string.
Proof. repeat split; try discriminate; now vm_compute. Qed.

(** ** The fetch stage (C3) *)

(** C3, as amended.  A cycle renders only after both requests succeeded:
    when the fetch stage fails, [refresh] throws its error and leaves the
    page as it was.  The stage succeeds exactly when both [getJSON] calls
    do, and it fails with the rejection that settled first: with the
    error of a request exactly when that request failed and either
    settled first or the other one succeeded.  A response with a
    non-success status makes its [getJSON] fail with the error
    "HTTP <status>: <body text>"; the stage then fails with that error
    when that request settled first or the other one succeeded, and with
    the rejection of the other request when that one settled first. *)
Theorem fetch_stage_all_or_nothing (w : world) :
  (forall e p, fetch_stage w = Err e ->
     Rev1.refresh w p = (Err e, p) /\ Rev2.refresh w p = (Err e, p) /\
     Rev3.refresh w p = (Err e, p)) /\
  (is_ok (fetch_stage w) = true <->
     is_ok (getJSON (fetch_summary w) "/api/summary") = true /\
     is_ok (getJSON (fetch_timeseries w) "/api/timeseries?days=7") = true) /\
  (forall e, fetch_stage w = Err e <->
     (getJSON (fetch_summary w) "/api/summary" = Err e /\
      (summary_first w = true \/
       is_ok (getJSON (fetch_timeseries w) "/api/timeseries?days=7") = true)) \/
     (getJSON (fetch_timeseries w) "/api/timeseries?days=7" = Err e /\
      (summary_first w = false \/
       is_ok (getJSON (fetch_summary w) "/api/summary") = true))) /\
  (forall r, fetch_summary w "/api/summary" = Responded r -> ok r = false ->
     getJSON (fetch_summary w) "/api/summary" = Err (http_error (status r) (body_text r)) /\
     (summary_first w = true \/
      is_ok (getJSON (fetch_timeseries w) "/api/timeseries?days=7") = true ->
      fetch_stage w = Err (http_error (status r) (body_text r))) /\
     (forall e, summary_first w = false ->
        getJSON (fetch_timeseries w) "/api/timeseries?days=7" = Err e ->
        fetch_stage w = Err e)) /\
  (forall r, fetch_timeseries w "/api/timeseries?days=7" = Responded r -> ok r = false ->
     getJSON (fetch_timeseries w) "/api/timeseries?days=7"
       = Err (http_error (status r) (body_text r)) /\
     (summary_first w = false \/
      is_ok (getJSON (fetch_summary w) "/api/summary") = true ->
      fetch_stage w = Err (http_error (status r) (body_text r))) /\
     (forall e, summary_first w = true ->
        getJSON (fetch_summary w) "/api/summary" = Err e ->
        fetch_stage w = Err e)).
Proof.
  split; [|split; [|split; [|split]]].
  - intros e p He.
    unfold Rev1.refresh, Rev2.refresh, Rev3.refresh. cbv [bind lift]. now rewrite He.
  - unfold fetch_stage, Promise_all.
    destruct (getJSON (fetch_summary w) "/api/summary"),
      (getJSON (fetch_timeseries w) "/api/timeseries?days=7"); cbn [is_ok];
      split; try tauto; intros [? ?]; discriminate.
  - intros e. unfold fetch_stage, Promise_all.
    destruct (getJSON (fetch_summary w) "/api/summary") as [vs|es],
      (getJSON (fetch_timeseries w) "/api/timeseries?days=7") as [vt|et],
      (summary_first w); cbn [is_ok]; split;
      try (intros [= <-]); try tauto;
      intros [[[= <-] [H|H]]|[[= <-] [H|H]]]; try discriminate; reflexivity.
  - intros r Hr Hok.
    assert (Hs : getJSON (fetch_summary w) "/api/summary"
                 = Err (http_error (status r) (body_text r))).
    { unfold getJSON. rewrite Hr, Hok. reflexivity. }
    split; [exact Hs|]. unfold fetch_stage, Promise_all. rewrite Hs.
    destruct (getJSON (fetch_timeseries w) "/api/timeseries?days=7") as [v|e'];
      cbn [is_ok]; split.
    + reflexivity.
    + intros e _ [=].
    + intros [->|[=]]. reflexivity.
    + intros e -> [= ->]. reflexivity.
  - intros r Hr Hok.
    assert (Hs : getJSON (fetch_timeseries w) "/api/timeseries?days=7"
                 = Err (http_error (status r) (body_text r))).
    { unfold getJSON. rewrite Hr, Hok. reflexivity. }
    split; [exact Hs|]. unfold fetch_stage, Promise_all. rewrite Hs.
    destruct (getJSON (fetch_summary w) "/api/summary") as [v|e'];
      cbn [is_ok]; split.
    + reflexivity.
    + intros e _ [=].
    + intros [->|[=]]. reflexivity.
    + intros e -> [= ->]. reflexivity.
Qed.

Lemma fetch_stage_all_or_nothing_witness :
  Rev3.refresh summary_500_world (initial_page ∅)
    = (Err (http_error 500 "Internal Server Error"), initial_page ∅).
Proof.
  apply (proj1 (fetch_stage_all_or_nothing summary_500_world)). reflexivity.
Defined.

(** C3, as stated, fails: the summary response has status 500, yet the
    stage fails with the error of the other request, which was not JSON
    and settled first. *)
Lemma fetch_stage_other_error_first :
  fetch_summary summary_500_bad_json_world "/api/summary"
    = Responded (mkResponse 500 "Internal Server Error"
                   (Err (mkError "SyntaxError" "Unexpected token 'I'"))) /\
  fetch_stage summary_500_bad_json_world
    = Err (mkError "SyntaxError" "Unexpected token '<'") /\
  mkError "SyntaxError" "Unexpected token '<'" <> http_error 500 "Internal Server Error".
Proof. repeat split. discriminate. Qed.

(** ** Failures and the timer (C4) *)

(** C4, as amended.  No error of a cycle escapes the driver.  A cycle
    that fails leaves every chart and the timers as they were; the text
    fields hold what the cycle wrote before it failed.  So the status
    field keeps its text when the cycle failed at the fetch stage or on
    a summary whose readings cannot be read, and holds the cycle's own
    "Last updated: " line when it failed later, in the chart stage.  When
    the first cycle fails, the error is logged, "Error loading data: "
    with its message is written over the status field, and no timer is
    installed.  When a timer cycle fails, the error is logged and nothing
    else happens: no error message reaches the status field, and the
    timer stays, so the next tick runs a cycle again. *)
Theorem cycle_errors_are_contained (w : world) (p : page) :
  (forall evs q, fst (Rev3.run evs q) = Ok tt) /\
  (forall e p', charts_inv p -> Rev3.refresh w p = (Err e, p') ->
     same_charts p p' /\ intervals p' = intervals p /\
     text p' = Rev3_text_effect w (text p) /\
     (forall e0, fetch_stage w = Err e0 -> e0 = e /\ p' = p) /\
     (kpis_readable w = false -> text p' !! "lastUpdated" = text p !! "lastUpdated") /\
     (kpis_readable w = true ->
      exists s ts cur, fetch_stage w = Ok (Obj s, ts) /\ current s = Obj cur /\
        text p' !! "lastUpdated"
          = Some ("Last updated: " +:+ fmtLocalTime (the_host w) (ts_utc cur) false)) /\
     Rev3.step (Load w) p =
       (Ok tt,
        with_text (fun t => <["lastUpdated" := "Error loading data: " +:+ err_message e]> t)
          (with_console (fun l => e :: l) p')) /\
     (forall d, intervals p = [d] ->
        Rev3.step (Tick w) p = (Ok tt, with_console (fun l => e :: l) p') /\
        text (snd (Rev3.step (Tick w) p)) = text p' /\
        forall w', Rev3.step (Tick w') (with_console (fun l => e :: l) p')
                   = Rev3.on_interval w' (with_console (fun l => e :: l) p'))).
Proof.
  split; [intros evs q; apply run_ok|].
  intros e p' Hinv He.
  pose proof (Rev3_refresh_charts w p Hinv) as H. rewrite He in H.
  destruct H as (Hsame & _ & Hiv).
  pose proof (Rev3_text_effect_correct w p) as Htext. rewrite He in Htext.
  cbn [snd] in Htext.
  split; [exact Hsame|]. split; [exact Hiv|]. split; [exact Htext|].
  split.
  { intros e0 Hf.
    assert (Hr : Rev3.refresh w p = (Err e0, p)).
    { unfold Rev3.refresh. cbv [bind lift]. now rewrite Hf. }
    rewrite Hr in He. injection He as -> ->. now split. }
  split.
  { intros Hk. rewrite Htext. unfold kpis_readable in Hk. unfold Rev3_text_effect.
    destruct (fetch_stage w) as [[[| |s] ts]|e0]; try reflexivity.
    destruct (current s) as [| |cur]; try reflexivity.
    destruct (temp_24h_high s) as [| |hi], (temp_24h_low s) as [| |lo];
      try discriminate Hk;
      repeat (rewrite lookup_insert_ne by discriminate); reflexivity. }
  split.
  { intros Hk. rewrite Htext. unfold kpis_readable in Hk. unfold Rev3_text_effect.
    destruct (fetch_stage w) as [[[| |s] ts]|e0]; try discriminate Hk.
    destruct (current s) as [| |cur] eqn:Hcur; try discriminate Hk.
    destruct (temp_24h_high s) as [| |hi]; try discriminate Hk.
    destruct (temp_24h_low s) as [| |lo]; try discriminate Hk.
    exists s, ts, cur. split; [reflexivity|]. split; [exact Hcur|].
    unfold Rev3_kpi_text. now rewrite lookup_insert_eq. }
  split; [now apply main_failed|].
  intros d Hd.
  pose proof (tick_failed Rev3.refresh w p d e p' Hd He) as Htick.
  split; [exact Htick|]. split.
  { unfold Rev3.step. now rewrite Htick. }
  intros w'. unfold Rev3.step, Rev3.on_interval. cbn [step with_console intervals].
  rewrite Hiv, Hd. cbn [for_each]. unfold bind.
  pose proof (on_interval_ok Rev3.refresh w' (with_console (fun l => e :: l) p')) as Hok.
  cbn [with_console] in Hok.
  destruct (on_interval Rev3.refresh w' _) as [[[]|e'] q]; [reflexivity|discriminate].
Qed.

Lemma cycle_errors_are_contained_witness :
  Rev3.step (Load summary_500_world) (initial_page ∅) =
    (Ok tt,
     with_text
       (fun t => <["lastUpdated" :=
          "Error loading data: " +:+ err_message (http_error 500 "Internal Server Error")]> t)
       (with_console (fun l => http_error 500 "Internal Server Error" :: l)
          (initial_page ∅))).
Proof.
  apply (proj2 (cycle_errors_are_contained summary_500_world (initial_page ∅))
           (http_error 500 "Internal Server Error") (initial_page ∅)
           (charts_inv_initial ∅) eq_refl).
Defined.

(** C4, as stated, fails twice.  When the first cycle fails no timer is
    installed, so a later tick does nothing, even in a world where a
    cycle would succeed.  When a timer cycle fails, the status field
    keeps the text of the last good cycle. *)
Lemma failed_cycle_timer_and_status :
  (let p1 := snd (Rev3.step (Load summary_500_world) (initial_page ∅)) in
   intervals p1 = [] /\
   Rev3.step (Tick (scenario_world (Num 0))) p1 = (Ok tt, p1)) /\
  (let p1 := snd (Rev3.step (Load (scenario_world (Num 0))) (initial_page ∅)) in
   let p2 := snd (Rev3.step (Tick summary_500_world) p1) in
   intervals p1 = [60000] /\
   text p2 !! "lastUpdated" = Some "Last updated: 1/1/2024, 12:00:00 PM"%string /\
   console p2 = [http_error 500 "Internal Server Error"]).
Proof. vm_compute. repeat split. Qed.

(** ** The charts over the page's lifetime (C5) *)



(** * Further properties of the script *)

(** ** [getJSON] *)

Lemma ok_iff {A} (r : response A) : ok r = true <-> 200 <= status r <= 299.
Proof. unfold ok. rewrite andb_true_iff, !Z.leb_le. tauto. Qed.

(** [getJSON] succeeds exactly when the request got a response with a
    status from 200 to 299 whose body decodes, and then returns the
    decoded body.  A rejected request fails with the rejection itself; a
    response with another status fails with an [Error] whose message is
    "HTTP ", the status in decimal, ": " and the body text; a 2xx body
    that does not decode fails with the decoder's error. *)
Theorem getJSON_outcomes {A} (fetch : string -> fetched A) (url : string) :
  (forall v, getJSON fetch url = Ok v <->
     exists r, fetch url = Responded r /\ 200 <= status r <= 299 /\ body_json r = Ok v) /\
  (forall e, fetch url = Rejected e -> getJSON fetch url = Err e) /\
  (forall r, fetch url = Responded r -> ~ 200 <= status r <= 299 ->
     getJSON fetch url = Err (http_error (status r) (body_text r)) /\
     err_name (http_error (status r) (body_text r)) = "Error"%string /\
     (0 <= status r ->
      exists d, err_message (http_error (status r) (body_text r))
                  = "HTTP " +:+ d +:+ ": " +:+ body_text r /\
                all_digits d = true /\ digits_value d = status r)) /\
  (forall r e, fetch url = Responded r -> 200 <= status r <= 299 ->
     body_json r = Err e -> getJSON fetch url = Err e).
Proof.
  unfold getJSON. split; [|split; [|split]].
  - intros v. split.
    + destruct (fetch url) as [e|r]; [discriminate|].
      destruct (ok r) eqn:Hok; cbn [negb]; [|discriminate].
      intros Hv. exists r. split; [reflexivity|]. split; [now apply ok_iff|exact Hv].
    + intros (r & -> & Hst & Hv). apply ok_iff in Hst. now rewrite Hst.
  - now intros e ->.
  - intros r -> Hst. split; [|split].
    + destruct (ok r) eqn:Hok; [|reflexivity]. apply ok_iff in Hok. contradiction.
    + reflexivity.
    + intros Hpos. exists (decimal (status r)). unfold http_error, Error, int_to_string.
      cbn [err_message]. destruct (Z.ltb_spec (status r) 0); [lia|].
      split; [reflexivity|]. split; [now apply decimal_digits|now apply decimal_value].
  - intros r e -> Hst He. apply ok_iff in Hst. now rewrite Hst.
Qed.

Lemma getJSON_outcomes_witness :
  getJSON (serve "/api/summary"
             (Responded (mkResponse 404 "Not Found" (Ok (@ObjNull Summary)))))
    "/api/summary" = Err (http_error 404 "Not Found").
Proof.
  refine (proj1 (proj1 (proj2 (proj2 (getJSON_outcomes
    (serve "/api/summary" (Responded (mkResponse 404 "Not Found" (Ok (@ObjNull Summary)))))
    "/api/summary"))) (mkResponse 404 "Not Found" (Ok ObjNull)) eq_refl _)).
  cbn [status]. lia.
Defined.

(** ** [fmtNum] *)

(** [fmtNum] throws exactly when its argument is a number other than NaN
    and the digit count lies outside 0..100; an omitted digit count
    means 2.  So the calls of the script, with 1 and 2, never throw. *)
Theorem fmtNum_throws_iff (x : jsnum) (d : Z) :
  (is_ok (fmtNum x (Some d)) = false <->
     (exists f, x = Num f /\ is_nan f = false) /\ (d < 0 \/ 100 < d)) /\
  fmtNum x None = fmtNum x (Some 2).
Proof.
  split; [|reflexivity]. split.
  - intros H.
    assert (Hd : d < 0 \/ 100 < d).
    { destruct (Z_lt_ge_dec d 0); [now left|].
      destruct (Z_lt_ge_dec 100 d); [now right|].
      destruct (fmtNum_total x d ltac:(lia)) as [s Hs]. rewrite Hs in H. discriminate. }
    split; [|exact Hd].
    destruct x as [| |f]; [discriminate|discriminate|].
    exists f. split; [reflexivity|].
    destruct (is_nan f) eqn:Hn; [|reflexivity].
    rewrite fmtNum_nan in H by exact Hn. discriminate.
  - intros [(f & -> & Hn) Hd].
    rewrite fmtNum_number by exact Hn. now rewrite toFixed_range_error.
Qed.

(** ** The text fields a cycle writes *)

Ltac lookup_other Hk :=
  repeat (rewrite lookup_insert_ne
            by (intros <-; apply Hk; cbn [kpi_ids In]; tauto));
  reflexivity.

(** Whatever the world and however the cycle ends, the second and third
    revisions write no text field but the nine KPI fields; in particular
    they never write the timestamps under the current readings nor the
    delta's reference line. *)
Theorem refresh_writes_only_kpis (w : world) (p : page) (k : string) :
  ~ In k kpi_ids ->
  text (snd (Rev3.refresh w p)) !! k = text p !! k /\
  text (snd (Rev2.refresh w p)) !! k = text p !! k.
Proof.
  intros Hk.
  rewrite (Rev3_text_effect_correct w p), (Rev2_text_effect_correct w p).
  unfold Rev3_text_effect, Rev2_text_effect, Rev3_kpi_text, Rev2_kpi_text.
  destruct (fetch_stage w) as [[[| |s] ts]|e]; try (split; reflexivity).
  destruct (current s) as [| |cur]; try (split; reflexivity).
  destruct (temp_24h_high s) as [| |hi];
    [split; lookup_other Hk|split; lookup_other Hk|].
  destruct (temp_24h_low s) as [| |lo]; split; lookup_other Hk.
Qed.

Lemma refresh_writes_only_kpis_witness :
  text (snd (Rev3.refresh (scenario_world (Num 0)) (initial_page ∅))) !! "curTempTs"
    = (∅ : gmap string string) !! "curTempTs" /\
  text (snd (Rev2.refresh (scenario_world (Num 0)) (initial_page ∅))) !! "curTempTs"
    = (∅ : gmap string string) !! "curTempTs".
Proof.
  apply (refresh_writes_only_kpis (scenario_world (Num 0)) (initial_page ∅) "curTempTs").
  cbn [kpi_ids In]. intros H.
  repeat (destruct H as [H|H]; [discriminate H|]). exact H.
Defined.

Ltac same_lookup :=
  rewrite !lookup_insert; repeat (case_decide; [reflexivity|]); reflexivity.

Lemma Rev3_text_effect_idempotent w t :
  Rev3_text_effect w (Rev3_text_effect w t) = Rev3_text_effect w t.
Proof.
  unfold Rev3_text_effect, Rev3_kpi_text.
  destruct (fetch_stage w) as [[[| |s] ts]|e]; try reflexivity.
  destruct (current s) as [| |cur]; try reflexivity.
  destruct (temp_24h_high s) as [| |hi];
    [apply map_eq; intros k; same_lookup|apply map_eq; intros k; same_lookup|].
  destruct (temp_24h_low s) as [| |lo]; apply map_eq; intros k; same_lookup.
Qed.

Lemma Rev2_text_effect_idempotent w t :
  Rev2_text_effect w (Rev2_text_effect w t) = Rev2_text_effect w t.
Proof.
  unfold Rev2_text_effect, Rev2_kpi_text.
  destruct (fetch_stage w) as [[[| |s] ts]|e]; try reflexivity.
  destruct (current s) as [| |cur]; try reflexivity.
  destruct (temp_24h_high s) as [| |hi];
    [apply map_eq; intros k; same_lookup|apply map_eq; intros k; same_lookup|].
  destruct (temp_24h_low s) as [| |lo]; apply map_eq; intros k; same_lookup.
Qed.

(** Running a cycle twice in the same world leaves the text fields as
    running it once, whatever the outcome: the texts depend on the world
    only, not on what the fields held. *)
Theorem refresh_text_idempotent (w : world) (p : page) :
  text (snd (Rev3.refresh w (snd (Rev3.refresh w p)))) = text (snd (Rev3.refresh w p)) /\
  text (snd (Rev2.refresh w (snd (Rev2.refresh w p)))) = text (snd (Rev2.refresh w p)).
Proof.
  split.
  - etransitivity; [apply Rev3_text_effect_correct|].
    etransitivity; [|symmetry; apply Rev3_text_effect_correct].
    etransitivity; [|apply Rev3_text_effect_idempotent].
    f_equal. apply Rev3_text_effect_correct.
  - etransitivity; [apply Rev2_text_effect_correct|].
    etransitivity; [|symmetry; apply Rev2_text_effect_correct].
    etransitivity; [|apply Rev2_text_effect_idempotent].
    f_equal. apply Rev2_text_effect_correct.
Qed.

(** The third revision writes the same text as the second into every
    field but the pressure delta, whatever the world and the outcome. *)
Theorem third_revision_text_differs_in_delta_only (w : world) (p : page) (k : string) :
  k <> "presDelta"%string ->
  text (snd (Rev3.refresh w p)) !! k = text (snd (Rev2.refresh w p)) !! k.
Proof.
  intros Hk.
  rewrite (Rev3_text_effect_correct w p), (Rev2_text_effect_correct w p).
  unfold Rev3_text_effect, Rev2_text_effect, Rev3_kpi_text, Rev2_kpi_text.
  destruct (fetch_stage w) as [[[| |s] ts]|e]; try reflexivity.
  destruct (current s) as [| |cur]; try reflexivity.
  destruct (temp_24h_high s) as [| |hi]; try reflexivity.
  destruct (temp_24h_low s) as [| |lo]; try reflexivity.
  rewrite !lookup_insert.
  repeat (case_decide; [first [reflexivity|congruence]|]). reflexivity.
Qed.

Lemma third_revision_text_differs_in_delta_only_witness :
  text (snd (Rev3.refresh (scenario_world (Num 0)) (initial_page ∅))) !! "curPres"
    = text (snd (Rev2.refresh (scenario_world (Num 0)) (initial_page ∅))) !! "curPres".
Proof.
  apply (third_revision_text_differs_in_delta_only (scenario_world (Num 0))
           (initial_page ∅) "curPres").
  discriminate.
Defined.

(** ** The timer *)

(** After the page load and any number of timer ticks, the 60-second
    timer is installed exactly when the first cycle succeeded.  When it
    failed, the ticks do nothing: the page stays as the failed load left
    it, with no chart and the error logged. *)
Theorem timer_installed_iff_first_cycle_succeeds (w : world) (ticks : list world)
    (t : gmap string string) :
  (is_ok (fst (Rev3.refresh w (initial_page t))) = true ->
   intervals (snd (Rev3.run (Load w :: map Tick ticks) (initial_page t))) = [60000]) /\
  (forall e p1, Rev3.refresh w (initial_page t) = (Err e, p1) ->
   snd (Rev3.run (Load w :: map Tick ticks) (initial_page t))
     = snd (Rev3.step (Load w) (initial_page t)) /\
   intervals (snd (Rev3.run (Load w :: map Tick ticks) (initial_page t))) = [] /\
   charts (snd (Rev3.run (Load w :: map Tick ticks) (initial_page t))) = [] /\
   console (snd (Rev3.run (Load w :: map Tick ticks) (initial_page t))) = [e]).
Proof.
  pose proof (Rev3_refresh_keeps_timers w (initial_page t) (charts_inv_initial t))
    as [Hiv Hco].
  pose proof (Rev3_refresh_inv w (initial_page t) (charts_inv_initial t)) as Hinv.
  pose proof (Rev3_refresh_charts w (initial_page t) (charts_inv_initial t)) as Hch.
  unfold Rev3.run, Rev3.step. cbn [run step]. unfold bind.
  destruct (Rev3.refresh w (initial_page t)) as [[[]|e] p1] eqn:Hr; cbn [snd] in *.
  - rewrite (main_loaded Rev3.refresh _ _ _ Hr). split; [|intros e p1' [=]].
    intros _.
    change (intervals (snd (Rev3.run (map Tick ticks)
                             (with_intervals (fun l => l ++ [60000]) p1))) = [60000]).
    rewrite Rev3_ticks_keep_timers.
    + cbn [with_intervals intervals]. now rewrite Hiv.
    + eapply charts_inv_same; [|exact Hinv]. repeat split.
  - rewrite (main_failed Rev3.refresh _ _ _ _ Hr). split; [discriminate|].
    intros e' p1' [= <- <-].
    change (run Rev3.refresh (map Tick ticks)) with (Rev3.run (map Tick ticks)).
    rewrite Rev3_ticks_without_timer by (cbn [with_text with_console intervals]; exact Hiv).
    cbn [snd with_text with_console intervals charts console].
    destruct Hch as ((Hc & _) & _ & _).
    split; [reflexivity|]. split; [exact Hiv|]. split; [exact Hc|now rewrite Hco].
Qed.

Lemma timer_installed_iff_first_cycle_succeeds_witness :
  intervals (snd (Rev3.run (Load (scenario_world (Num 0))
                            :: map Tick [summary_500_world; scenario_world (Num 0)])
                    (initial_page ∅))) = [60000].
Proof.
  apply (proj1 (timer_installed_iff_first_cycle_succeeds (scenario_world (Num 0))
                  [summary_500_world; scenario_world (Num 0)] ∅)).
  now vm_compute.
Defined.

(** ** Payloads that are not what the script expects *)

(** When the summary's 24-hour high is [null], the cycle throws a
    TypeError on reading its temperature: the three current KPIs have
    been written by then, and nothing else is touched. *)
Theorem null_high_reading_aborts w p s ts cur :
  fetch_stage w = Ok (Obj s, ts) -> current s = Obj cur -> temp_24h_high s = ObjNull ->
  Rev3.refresh w p =
    (Err (TypeError "Cannot read properties of null (reading 'temp_f')"),
     with_text (Rev3_current_text cur) p).
Proof.
  intros Hfetch Hcur Hhi. destruct s as [c hi lo delta ref].
  cbn [current temp_24h_high] in Hcur, Hhi. subst c hi.
  destruct cur as [cts ctemp chum cpres].
  unfold Rev3.refresh, Rev3_current_text. kpi_run Hfetch. reflexivity.
Qed.

Lemma null_high_reading_aborts_witness :
  Rev3.refresh null_high_world (initial_page ∅) =
    (Err (TypeError "Cannot read properties of null (reading 'temp_f')"),
     with_text (Rev3_current_text scenario_reading) (initial_page ∅)).
Proof.
  apply (null_high_reading_aborts null_high_world (initial_page ∅) _ _ scenario_reading
           (fetch_stage_world_of _ _ _) eq_refl eq_refl).
Defined.

(** A [null] element in the time series makes the cycle throw a
    TypeError when the points are built: the KPI texts of the cycle are
    already in place, and no chart is created or changed. *)
Theorem null_series_element_aborts_after_kpis w p cur hi lo delta ref rs l :
  fetch_stage w =
    Ok (Obj (mkSummary (Obj cur) (Obj hi) (Obj lo) delta ref),
        Obj (map Obj rs ++ ObjNull :: l)) ->
  Rev3.refresh w p =
    (Err (TypeError "Cannot read properties of null (reading 'ts_utc')"),
     with_text (Rev3_kpi_text (the_host w) cur hi lo delta) p).
Proof.
  intros Hfetch. rewrite (Rev3_refresh_kpis _ _ _ _ _ _ _ _ Hfetch).
  unfold Rev3_charts_stage. cbv [bind lift].
  assert (H : points_of (Obj (map Obj rs ++ ObjNull :: l)) "temp_f" temp_f
              = Err (TypeError "Cannot read properties of null (reading 'ts_utc')")).
  { unfold points_of, array_map. cbn [prop]. unfold id.
    now apply (map_result_null_element _ (fun r => mkPoint (ts_utc r) (temp_f r))). }
  now rewrite H.
Qed.

Lemma null_series_element_aborts_after_kpis_witness :
  Rev3.refresh null_element_world (initial_page ∅) =
    (Err (TypeError "Cannot read properties of null (reading 'ts_utc')"),
     with_text (Rev3_kpi_text example_host scenario_reading scenario_reading
                  scenario_reading (Num 0)) (initial_page ∅)).
Proof.
  apply (null_series_element_aborts_after_kpis null_element_world (initial_page ∅)
           scenario_reading scenario_reading scenario_reading (Num 0)
           (Obj scenario_reading) [scenario_reading] []).
  reflexivity.
Defined.

(** ** The time series and the charts *)

(** An empty time series does not throw: the first cycle builds the five
    charts with empty point arrays, and a later cycle empties the point
    array of each chart and redraws it. *)
Theorem empty_series_gives_empty_charts w p cur hi lo delta ref :
  fetch_stage w = Ok (Obj (mkSummary (Obj cur) (Obj hi) (Obj lo) delta ref), Obj []) ->
  (no_charts p ->
   exists p', Rev3.refresh w p = (Ok tt, p') /\
     charts p' = built_charts (mkPointArrays [] [] [] [] [])) /\
  (five_charts p ->
   exists p', Rev3.refresh w p = (Ok tt, p') /\
     map data (charts p') = [[]; []; []; []; []] /\
     map updates (charts p') = map S (map updates (charts p))).
Proof.
  intros Hfetch. split.
  - intros Hno. eexists. split.
    + apply (Rev3_refresh_objects_first w p cur hi lo delta ref [] Hfetch Hno).
    + reflexivity.
  - intros Hfive. eexists. split.
    + apply (Rev3_refresh_objects_later w p cur hi lo delta ref [] Hfetch Hfive).
    + cbn [with_charts with_text charts].
      destruct Hfive as (_ & _ & _ & _ & _ & Hm).
      destruct (charts p) as [|c0 [|c1 [|c2 [|c3 [|c4 [|c5 cs]]]]]]; try discriminate.
      split; reflexivity.
Qed.

Lemma empty_series_gives_empty_charts_witness :
  exists p', Rev3.refresh (series_world []) (initial_page ∅) = (Ok tt, p') /\
    charts p' = built_charts (mkPointArrays [] [] [] [] []).
Proof.
  apply (proj1 (empty_series_gives_empty_charts (series_world []) (initial_page ∅)
           scenario_reading scenario_reading scenario_reading (Num 0)
           (Obj scenario_reading) (fetch_stage_world_of _ _ _))).
  repeat split.
Defined.

(** Every reading of the series becomes one chart point, in order, with
    its timestamp as [x] and the field's value as [y], [null] and missing
    values included as they are; the 24-hour charts get the points of the
    readings the filter keeps. *)
Theorem series_points_pass_through w p cur hi lo delta ref rs :
  fetch_stage w =
    Ok (Obj (mkSummary (Obj cur) (Obj hi) (Obj lo) delta ref), Obj (map Obj rs)) ->
  no_charts p ->
  (exists p', Rev3.refresh w p = (Ok tt, p') /\
     charts p' = built_charts (arrays_of (the_host w) rs)) /\
  length (tempPoints (arrays_of (the_host w) rs)) = length rs /\
  (forall i r, rs !! i = Some r ->
     tempPoints (arrays_of (the_host w) rs) !! i = Some (mkPoint (ts_utc r) (temp_f r)) /\
     humPoints (arrays_of (the_host w) rs) !! i = Some (mkPoint (ts_utc r) (humidity_pct r)) /\
     presPoints (arrays_of (the_host w) rs) !! i = Some (mkPoint (ts_utc r) (pressure_hpa r))) /\
  temp24Points (arrays_of (the_host w) rs) = points temp_f (recent (the_host w) rs) /\
  pres24Points (arrays_of (the_host w) rs) = points pressure_hpa (recent (the_host w) rs).
Proof.
  intros Hfetch Hno. split; [|split; [|split; [|split]]].
  - eexists. split; [apply (Rev3_refresh_objects_first _ _ _ _ _ _ _ _ Hfetch Hno)|].
    reflexivity.
  - cbn [arrays_of tempPoints]. unfold points. now rewrite length_map.
  - intros i r Hr. cbn [arrays_of tempPoints humPoints presPoints]. unfold points.
    rewrite !list_lookup_fmap, Hr. repeat split.
  - reflexivity.
  - reflexivity.
Qed.

Lemma series_points_pass_through_witness :
  exists p', Rev3.refresh (series_world [scenario_reading]) (initial_page ∅) = (Ok tt, p') /\
    charts p' = built_charts (arrays_of example_host [scenario_reading]).
Proof.
  apply (proj1 (series_points_pass_through (series_world [scenario_reading])
           (initial_page ∅) scenario_reading scenario_reading scenario_reading (Num 0)
           (Obj scenario_reading) [scenario_reading] (fetch_stage_world_of _ _ _)
           ltac:(repeat split))).
Defined.

Lemma leb_nan_r c : PrimFloat.leb c nan = false.
Proof.
  rewrite FloatAxioms.leb_spec. unfold SFleb, SFcompare.
  change (Prim2SF nan) with S754_nan. now destruct (Prim2SF c).
Qed.

(** The 24-hour subset keeps, in order, exactly the readings whose
    timestamp is not older than [Date.now()] minus 86 400 000 ms.  A
    reading whose timestamp is missing or does not parse (its time value
    is NaN) is dropped. *)
Theorem last_24h_window (h : host) (rs : list Reading) :
  Rev3.last_24h h (Obj (map Obj rs)) (PrimFloat.sub (Date_now h) Rev3.day_ms)
    = Ok (Obj (map Obj (recent h rs))) /\
  Rev3.day_ms = 86400000%float /\
  (forall r, In r (recent h rs) <->
     In r rs /\
     PrimFloat.leb (PrimFloat.sub (Date_now h) 86400000) (Date_getTime h (ts_utc r)) = true) /\
  (forall r, is_nan (Date_getTime h (ts_utc r)) = true -> ~ In r (recent h rs)) /\
  (forall r, ts_utc r = StrUndefined -> ~ In r (recent h rs)) /\
  sublist (recent h rs) rs.
Proof.
  split; [apply last_24h_objects|]. split; [reflexivity|].
  assert (Hin : forall r, In r (recent h rs) <->
     In r rs /\
     PrimFloat.leb (PrimFloat.sub (Date_now h) 86400000) (Date_getTime h (ts_utc r)) = true).
  { intros r. unfold recent. apply filter_In. }
  assert (Hnan : forall r, is_nan (Date_getTime h (ts_utc r)) = true -> ~ In r (recent h rs)).
  { intros r Hn Hr. apply Hin in Hr as [_ Hr].
    apply is_nan_unique in Hn. rewrite Hn, leb_nan_r in Hr. discriminate. }
  split; [exact Hin|]. split; [exact Hnan|]. split.
  - intros r Hr. apply Hnan. now rewrite Hr.
  - clear Hin Hnan. unfold recent. induction rs as [|r rs IH]; [constructor|].
    cbn [List.filter]. destruct (PrimFloat.leb _ _);
      [apply sublist_skip|apply sublist_cons]; exact IH.
Qed.

(** ** Missing and null fields *)

(** The 24-hour high shows a bare placeholder when its temperature is
    [null], but the placeholder followed by the unit when the
    temperature is missing or NaN: only [null] is tested for. *)
Theorem high_null_versus_missing w p s ts cur hi :
  fetch_stage w = Ok (Obj s, ts) -> current s = Obj cur -> temp_24h_high s = Obj hi ->
  text (snd (Rev3.refresh w p)) !! "tHigh" = Some (high_low_text (temp_f hi) 1) /\
  text (snd (Rev2.refresh w p)) !! "tHigh" = Some (high_low_text (temp_f hi) 1) /\
  high_low_text NumNull 1 = "—"%string /\
  high_low_text NumUndefined 1 = "— °F"%string /\
  high_low_text (Num nan) 1 = "— °F"%string /\
  (forall f, is_nan f = false ->
     exists digits, toFixed f 1 = Ok digits /\
       high_low_text (Num f) 1 = digits +:+ " °F").
Proof.
  intros Hfetch Hcur Hhi. split; [|split].
  - rewrite (Rev3_text_effect_correct w p). unfold Rev3_text_effect, Rev3_kpi_text.
    rewrite Hfetch, Hcur, Hhi.
    destruct (temp_24h_low s) as [| |lo];
      repeat (rewrite lookup_insert_ne by discriminate);
      now rewrite lookup_insert_eq.
  - rewrite (Rev2_text_effect_correct w p). unfold Rev2_text_effect, Rev2_kpi_text.
    rewrite Hfetch, Hcur, Hhi.
    destruct (temp_24h_low s) as [| |lo];
      repeat (rewrite lookup_insert_ne by discriminate);
      now rewrite lookup_insert_eq.
  - repeat split. intros f Hn.
    destruct (toFixed_total f 1 ltac:(lia)) as [digits Hd].
    exists digits. split; [exact Hd|].
    unfold high_low_text, fmt. cbn [is_null]. now rewrite fmtNum_number, Hd.
Qed.

Lemma high_null_versus_missing_witness :
  text (snd (Rev3.refresh (scenario_world (Num 0)) (initial_page ∅))) !! "tHigh"
    = Some "72.3 °F"%string.
Proof.
  exact (proj1 (high_null_versus_missing (scenario_world (Num 0)) (initial_page ∅)
    (scenario_summary (Num 0)) _ scenario_reading scenario_reading
    (fetch_stage_world_of _ _ _) eq_refl eq_refl)).
Defined.

(** A timestamp that is missing, [null] or empty renders as the
    placeholder in both modes, without consulting the browser's clock or
    locale: the status field then reads "Last updated: —" and the
    high's time "@ —". *)
Theorem missing_timestamp_renders_placeholder w p cur hi lo delta ref ts :
  fetch_stage w = Ok (Obj (mkSummary (Obj cur) (Obj hi) (Obj lo) delta ref), ts) ->
  (forall iso, falsy iso = true <-> iso = StrUndefined \/ iso = StrNull \/ iso = Str "") /\
  (falsy (ts_utc cur) = true ->
   text (snd (Rev3.refresh w p)) !! "lastUpdated" = Some "Last updated: —"%string /\
   text (snd (Rev2.refresh w p)) !! "lastUpdated" = Some "Last updated: —"%string) /\
  (falsy (ts_utc hi) = true ->
   text (snd (Rev3.refresh w p)) !! "tHighTs" = Some "@ —"%string /\
   text (snd (Rev2.refresh w p)) !! "tHighTs" = Some "@ —"%string) /\
  (forall s, ts_utc cur = Str s -> s <> ""%string ->
   text (snd (Rev3.refresh w p)) !! "lastUpdated"
     = Some ("Last updated: " +:+ toLocaleString (the_host w) (Date_parse (the_host w) s))).
Proof.
  intros Hfetch.
  rewrite (Rev3_refresh_text _ _ _ _ _ _ _ _ Hfetch), (Rev2_refresh_text _ _ _ _ _ _ _ _ Hfetch).
  unfold Rev3_kpi_text, Rev2_kpi_text, fmtLocalTime.
  split; [|split; [|split]].
  - intros [| |s]; cbn [falsy].
    + split; [now left|reflexivity].
    + split; [now right; left|reflexivity].
    + destruct (String.eqb_spec s "") as [->|Hne].
      * split; [now right; right|reflexivity].
      * split; [discriminate|]. intros [H|[H|H]]; try discriminate. congruence.
  - intros Hf. rewrite Hf. split; now rewrite lookup_insert_eq.
  - intros Hf. rewrite Hf.
    split; repeat (rewrite lookup_insert_ne by discriminate); now rewrite lookup_insert_eq.
  - intros s Hs Hne. rewrite Hs. cbn [falsy Date_getTime].
    destruct (String.eqb_spec s "") as [->|_]; [contradiction|].
    now rewrite lookup_insert_eq.
Qed.

Lemma missing_timestamp_renders_placeholder_witness :
  text (snd (Rev3.refresh (scenario_world (Num 0)) (initial_page ∅))) !! "lastUpdated"
    = Some ("Last updated: " +:+ "1/1/2024, 12:00:00 PM")%string.
Proof.
  refine (proj2 (proj2 (proj2 (missing_timestamp_renders_placeholder
    (scenario_world (Num 0)) (initial_page ∅) scenario_reading scenario_reading
    scenario_reading (Num 0) (Obj scenario_reading) _ (fetch_stage_world_of _ _ _))))
    "2024-01-01T12:00:00Z"%string eq_refl _).
  discriminate.
Defined.

(** A pressure change that is [null] or missing is reported as "flat":
    [null] counts as zero and shows "0.0", a missing value shows the
    placeholder. *)
Theorem absent_delta_is_flat w p cur hi lo ref ts (delta : jsnum) :
  fetch_stage w = Ok (Obj (mkSummary (Obj cur) (Obj hi) (Obj lo) delta ref), ts) ->
  (delta = NumNull ->
   direction_of delta = "flat"%string /\
   text (snd (Rev3.refresh w p)) !! "presDelta" = Some "flat 0.0 hPa / 0.0 inHg"%string /\
   text (snd (Rev2.refresh w p)) !! "presDelta" = Some "flat 0.0 hPa"%string) /\
  (delta = NumUndefined ->
   direction_of delta = "flat"%string /\
   text (snd (Rev3.refresh w p)) !! "presDelta" = Some "flat — hPa / — inHg"%string /\
   text (snd (Rev2.refresh w p)) !! "presDelta" = Some "flat — hPa"%string).
Proof.
  intros Hfetch.
  pose proof (Rev2_delta_kpi w p _ _ _ _ _ _ Hfetch) as H2.
  pose proof (Rev3_delta_kpi w p _ _ _ _ _ _ Hfetch) as H3.
  split; intros ->; (split; [reflexivity|]);
    (split; [etransitivity; [exact H3|]|etransitivity; [exact H2|]]);
    now vm_compute.
Qed.

Lemma absent_delta_is_flat_witness :
  text (snd (Rev3.refresh (scenario_world NumNull) (initial_page ∅))) !! "presDelta"
    = Some "flat 0.0 hPa / 0.0 inHg"%string.
Proof.
  exact (proj1 (proj2 (proj1 (absent_delta_is_flat (scenario_world NumNull) (initial_page ∅)
    scenario_reading scenario_reading scenario_reading (Obj scenario_reading) _ NumNull
    (fetch_stage_world_of _ _ _)) eq_refl))).
Defined.

(** ** The first revision *)

(** The first revision shows the time of the current reading four times:
    the three fields under the current values hold one and the same
    text, and the status field holds it after "Last updated: ".  Its
    high and low times are full date-times without the "@ " prefix, and
    the delta's reference line is "vs ", the reference time and
    " reference". *)
Theorem first_revision_timestamps w p cur hi lo delta ref ts :
  fetch_stage w = Ok (Obj (mkSummary (Obj cur) (Obj hi) (Obj lo) delta (Obj ref)), ts) ->
  exists curTs,
    curTs = Rev1.fmtLocalTime (the_host w) (ts_utc cur) /\
    text (snd (Rev1.refresh w p)) !! "curTempTs" = Some curTs /\
    text (snd (Rev1.refresh w p)) !! "curHumTs" = Some curTs /\
    text (snd (Rev1.refresh w p)) !! "curPresTs" = Some curTs /\
    text (snd (Rev1.refresh w p)) !! "lastUpdated" = Some ("Last updated: " +:+ curTs) /\
    text (snd (Rev1.refresh w p)) !! "tHighTs"
      = Some (Rev1.fmtLocalTime (the_host w) (ts_utc hi)) /\
    text (snd (Rev1.refresh w p)) !! "tLowTs"
      = Some (Rev1.fmtLocalTime (the_host w) (ts_utc lo)) /\
    text (snd (Rev1.refresh w p)) !! "presDeltaSub"
      = Some ("vs " +:+ Rev1.fmtLocalTime (the_host w) (ts_utc ref) +:+ " reference") /\
    (forall iso, Rev1.fmtLocalTime (the_host w) iso = fmtLocalTime (the_host w) iso false).
Proof.
  intros Hfetch. eexists. split; [reflexivity|].
  rewrite (Rev1_refresh_text _ _ _ _ _ _ _ _ Hfetch). unfold Rev1_kpi_text.
  repeat (split; [lookup_text|]). reflexivity.
Qed.

Lemma first_revision_timestamps_witness :
  exists curTs,
    curTs = Rev1.fmtLocalTime example_host (Str "2024-01-01T12:00:00Z") /\
    text (snd (Rev1.refresh (scenario_world (Num 0)) (initial_page ∅))) !! "curTempTs"
      = Some curTs.
Proof.
  destruct (first_revision_timestamps (scenario_world (Num 0)) (initial_page ∅)
              scenario_reading scenario_reading scenario_reading (Num 0) scenario_reading _
              (fetch_stage_world_of _ _ _)) as (curTs & Hc & Ht & _).
  exists curTs. split; [exact Hc|exact Ht].
Defined.

(** A summary whose 24-hour pressure reference is [null] aborts a cycle
    of the first revision with a TypeError, after the delta is written
    and before the status and the charts are; the second and third
    revisions never read the reference and complete the cycle. *)
Theorem first_revision_needs_reference w p cur hi lo delta rs :
  fetch_stage w =
    Ok (Obj (mkSummary (Obj cur) (Obj hi) (Obj lo) delta ObjNull), Obj (map Obj rs)) ->
  fst (Rev1.refresh w p)
    = Err (TypeError "Cannot read properties of null (reading 'ts_utc')") /\
  text (snd (Rev1.refresh w p)) !! "presDelta"
    = Some (direction_of delta +:+ " " +:+ fmt (Num (Math_abs delta)) 2 +:+ " hPa") /\
  text (snd (Rev1.refresh w p)) !! "presDeltaSub" = text p !! "presDeltaSub" /\
  text (snd (Rev1.refresh w p)) !! "lastUpdated" = text p !! "lastUpdated" /\
  charts (snd (Rev1.refresh w p)) = charts p /\
  (vars7_ok p -> fst (Rev2.refresh w p) = Ok tt) /\
  (charts_inv p -> fst (Rev3.refresh w p) = Ok tt).
Proof.
  intros Hfetch.
  split; [|split; [|split; [|split; [|split; [|split]]]]].
  6: intros Hv; exact (Rev2_refresh_succeeds _ _ _ _ _ _ _ _ Hfetch Hv).
  6: intros Hv; exact (Rev3_refresh_succeeds _ _ _ _ _ _ _ _ Hfetch Hv).
  all: unfold Rev1.refresh; destruct cur as [cts ctemp chum cpres],
    hi as [hts [| |hf] hhum hpres], lo as [lts [| |lf] lhum lpres];
    kpi_run Hfetch; cbv [with_text text charts]; try reflexivity;
    repeat (rewrite lookup_insert_ne by discriminate);
    first [reflexivity | now rewrite lookup_insert_eq].
Qed.

Lemma first_revision_needs_reference_witness :
  fst (Rev1.refresh
         (world_of (ok_response (Obj (mkSummary (Obj scenario_reading) (Obj scenario_reading)
                                        (Obj scenario_reading) (Num 0) ObjNull)))
                   (ok_response (Obj (map Obj [scenario_reading]))) true)
         (initial_page ∅))
    = Err (TypeError "Cannot read properties of null (reading 'ts_utc')").
Proof.
  exact (proj1 (first_revision_needs_reference _ (initial_page ∅) scenario_reading
    scenario_reading scenario_reading (Num 0) [scenario_reading]
    (fetch_stage_world_of _ _ _))).
Defined.
